(** * HealthVault: record lifecycle and attachment management

    A shallow embedding of the backend's record handlers
    (controllers/recordController.js), the account deletion handler
    (controllers/userController.js), the upload storage (multer.js), the
    record schema (models/Record.js) and the record routes
    (routes/records.js), followed by the properties of the record
    lifecycle.

    The handlers run against a world made of the records collection, the
    users collection and the backend's upload directory.  The calls they
    make into the runtime (JSON.parse, fs, the document mapper) are
    modelled by the primitives of section "Runtime"; every source function
    is a definition of the same name.

    Outside the model: the [protect] middleware (a request here has passed
    it and carries [req.user]), the listing handler [getRecords], the
    profile and password handlers, and the timestamps of a record. *)

From Stdlib Require Import Ascii String.
From stdpp Require Import base strings gmap list.
From stdpp Require Import sorting.

Local Open Scope string_scope.
Local Open Scope list_scope.
Set Warnings "-register-all,-clear-no-such-hyp".

(** ** JSON values

    The result type of [JSON.parse].  A number carries the text that
    [Number.prototype.toString] prints for it; an object lists its members,
    each key once. *)

Inductive json : Type :=
| JNull
| JBool (b : bool)
| JNumber (text : string)
| JString (s : string)
| JArray (items : list json)
| JObject (members : list (string * json)).

(** [obj[key]] on a parsed object. *)
Fixpoint member (key : string) (members : list (string * json)) : option json :=
  match members with
  | [] => None
  | (k, v) :: rest => if String.eqb k key then Some v else member key rest
  end.

(** [members[key] = v]: the way [JSON.parse] keeps the last of several
    members with one key. *)
Fixpoint setMember (key : string) (v : json) (members : list (string * json))
  : list (string * json) :=
  match members with
  | [] => [(key, v)]
  | (k, v0) :: rest =>
      if String.eqb k key then (k, v) :: rest else (k, v0) :: setMember key v rest
  end.

(** JavaScript truthiness of a string: every string but the empty one. *)
Definition truthy (s : string) : bool :=
  match s with
  | EmptyString => false
  | String _ _ => true
  end.

(** ** Data model (models/Record.js) *)

(** vitalsSchema: five optional String paths, no _id. *)
Record Vitals : Type := mkVitals {
  bloodPressure : option string;
  heartRate : option string;
  bloodSugar : option string;
  weight : option string;
  height : option string
}.

Definition emptyVitals : Vitals := mkVitals None None None None None.

(** files: two String paths, each defaulting to the empty string. *)
Record Files : Type := mkFiles {
  labReport : string;
  prescription : string
}.

Definition noFiles : Files := mkFiles "" "".

(** A persisted record.  [vitals] is [None] when the stored value is null.
    The timestamps the mapper maintains (createdAt, updatedAt) are left
    out: no handler reads or writes them. *)
Record RecordDoc : Type := mkRecordDoc {
  _id : string;
  user : string;
  title : string;
  medicalHistory : string;
  doctorNotes : string;
  vitals : option Vitals;
  files : Files
}.

(** A document instance in memory, between [new Record(...)] or
    [findById] and [save].  [doc_title] is [None] while the path is
    undefined; [doc_castError] records that a set on some path failed to
    cast, which the mapper reports when the document is validated. *)
Record Document : Type := mkDocument {
  doc_isNew : bool;
  doc_id : string;
  doc_user : string;
  doc_title : option string;
  doc_medicalHistory : string;
  doc_doctorNotes : string;
  doc_vitals : option Vitals;
  doc_files : Files;
  doc_castError : bool
}.

Definition hydrate (r : RecordDoc) : Document :=
  mkDocument false (_id r) (user r) (Some (title r)) (medicalHistory r)
    (doctorNotes r) (vitals r) (files r) false.

Definition set_title (t : string) (d : Document) : Document :=
  mkDocument (doc_isNew d) (doc_id d) (doc_user d) (Some t)
    (doc_medicalHistory d) (doc_doctorNotes d) (doc_vitals d) (doc_files d)
    (doc_castError d).

Definition set_medicalHistory (t : string) (d : Document) : Document :=
  mkDocument (doc_isNew d) (doc_id d) (doc_user d) (doc_title d) t
    (doc_doctorNotes d) (doc_vitals d) (doc_files d) (doc_castError d).

Definition set_doctorNotes (t : string) (d : Document) : Document :=
  mkDocument (doc_isNew d) (doc_id d) (doc_user d) (doc_title d)
    (doc_medicalHistory d) t (doc_vitals d) (doc_files d) (doc_castError d).

Definition set_labReport (p : string) (d : Document) : Document :=
  mkDocument (doc_isNew d) (doc_id d) (doc_user d) (doc_title d)
    (doc_medicalHistory d) (doc_doctorNotes d) (doc_vitals d)
    (mkFiles p (prescription (doc_files d))) (doc_castError d).

Definition set_prescription (p : string) (d : Document) : Document :=
  mkDocument (doc_isNew d) (doc_id d) (doc_user d) (doc_title d)
    (doc_medicalHistory d) (doc_doctorNotes d) (doc_vitals d)
    (mkFiles (labReport (doc_files d)) p) (doc_castError d).

(** *** Casting to the schema

    The String cast of the mapper: null stays null, a string is kept, a
    number or boolean is printed, an object stands for its string [_id]
    when it has one; an array or any other object is a cast error
    ([None]). *)
Definition castString (v : json) : option (option string) :=
  match v with
  | JNull => Some None
  | JString s => Some (Some s)
  | JNumber text => Some (Some text)
  | JBool b => Some (Some (if b then "true" else "false"))
  | JArray _ => None
  | JObject ms =>
      match member "_id" ms with
      | Some (JString s) => if truthy s then Some (Some s) else None
      | _ => None
      end
  end.

(** One path of the vitals subdocument: an absent member leaves the path
    undefined. *)
Definition castField (key : string) (ms : list (string * json))
  : option (option string) :=
  match member key ms with
  | None => Some None
  | Some v => castString v
  end.

(** The cast of a value assigned to the [vitals] path: null is kept, an
    object becomes a fresh subdocument holding the five schema paths and
    nothing else (strict schema), anything else is a cast error. *)
Definition castVitals (v : json) : option (option Vitals) :=
  match v with
  | JNull => Some None
  | JObject ms =>
      match castField "bloodPressure" ms, castField "heartRate" ms,
            castField "bloodSugar" ms, castField "weight" ms,
            castField "height" ms with
      | Some bp, Some hr, Some bs, Some wt, Some ht =>
          Some (Some (mkVitals bp hr bs wt ht))
      | _, _, _, _, _ => None
      end
  | _ => None
  end.

(** [doc.vitals = v]: the subdocument is replaced by the cast of [v]; a
    failed cast leaves the path as it was and marks the document. *)
Definition set_vitals (v : json) (d : Document) : Document :=
  match castVitals v with
  | Some vt =>
      mkDocument (doc_isNew d) (doc_id d) (doc_user d) (doc_title d)
        (doc_medicalHistory d) (doc_doctorNotes d) vt (doc_files d)
        (doc_castError d)
  | None =>
      mkDocument (doc_isNew d) (doc_id d) (doc_user d) (doc_title d)
        (doc_medicalHistory d) (doc_doctorNotes d) (doc_vitals d)
        (doc_files d) true
  end.

(** Validation before a save: no pending cast error, and the required
    [title] is a non-empty string (the required check of a String path
    rejects the empty string as it rejects undefined).  [user] is always
    set by the handlers. *)
Definition validate (d : Document) : option RecordDoc :=
  if doc_castError d then None
  else match doc_title d with
       | Some t =>
           if truthy t
           then Some (mkRecordDoc (doc_id d) (doc_user d) t
                        (doc_medicalHistory d) (doc_doctorNotes d)
                        (doc_vitals d) (doc_files d))
           else None
       | None => None
       end.

(** ** World, events and the handler monad *)

(** What a run does to its surroundings, in the order it happens.
    [OwnerChecked] marks the evaluation of the ownership comparison of a
    handler and carries its verdict. *)
Inductive Event : Type :=
| FileWritten (path : string)
| FileUnlinked (path : string)
| UnlinkFailed (path : string)
| OwnerChecked (id : string) (ok : bool)
| JsonParsed (text : string)
| RecordInserted (id : string)
| RecordSaved (id : string)
| RecordDeleted (id : string)
| RecordsDeletedOf (owner : string)
| UserDeleted (id : string)
| Logged (line : string).

(** The state a request runs against.
    - [records]: the records collection, by _id;
    - [users]: the _ids of the users collection;
    - [disk]: the files below the backend directory, by their path from
      that directory;
    - [undeletable]: the paths on which [fs.unlinkSync] throws;
    - [dbFaults]: for each coming call to the database, whether it fails
      (an empty list: no call fails). *)
Record World : Type := mkWorld {
  records : gmap string RecordDoc;
  users : gset string;
  disk : gset string;
  undeletable : gset string;
  dbFaults : list bool
}.

Definition with_records (rs : gmap string RecordDoc) (w : World) : World :=
  mkWorld rs (users w) (disk w) (undeletable w) (dbFaults w).
Definition with_users (us : gset string) (w : World) : World :=
  mkWorld (records w) us (disk w) (undeletable w) (dbFaults w).
Definition with_disk (d : gset string) (w : World) : World :=
  mkWorld (records w) (users w) d (undeletable w) (dbFaults w).
Definition with_dbFaults (fs : list bool) (w : World) : World :=
  mkWorld (records w) (users w) (disk w) (undeletable w) fs.

(** A thrown JavaScript error, by its [message]. *)
Record Exn : Type := mkExn { message : string }.

(** A computation returns a value or throws, changes the world and emits
    events; the world and the events of a run that throws are kept. *)
Definition M (A : Type) : Type := World -> (Exn + A) * World * list Event.

Definition ret {A} (a : A) : M A := fun w => (inr a, w, []).

Definition throw {A} (e : Exn) : M A := fun w => (inl e, w, []).

Definition bind {A B} (m : M A) (k : A -> M B) : M B :=
  fun w =>
    match m w with
    | (inl e, w1, evs1) => (inl e, w1, evs1)
    | (inr a, w1, evs1) =>
        match k a w1 with
        | (r, w2, evs2) => (r, w2, evs1 ++ evs2)
        end
    end.

(** [try { m } catch (err) { h err }] *)
Definition tryCatch {A} (m : M A) (h : Exn -> M A) : M A :=
  fun w =>
    match m w with
    | (inl e, w1, evs1) =>
        match h e w1 with
        | (r, w2, evs2) => (r, w2, evs1 ++ evs2)
        end
    | (inr a, w1, evs1) => (inr a, w1, evs1)
    end.

Definition emit (e : Event) : M unit := fun w => (inr tt, w, [e]).

Declare Scope M_scope.
Delimit Scope M_scope with M.
Notation "'let*' x ':=' m 'in' k" := (bind m (fun x => k))
  (at level 10, x name, m at level 100, k at level 200) : M_scope.
Notation "m '>>' k" := (bind m (fun _ => k))
  (at level 100, k at level 200, right associativity) : M_scope.
Local Open Scope M_scope.

(** ** Runtime: file system, console, upload storage, database *)

(** [console.warn] and [console.error]. *)
Definition console_warn (line : string) : M unit := emit (Logged line).
Definition console_error (line : string) : M unit := emit (Logged line).

(** [fs.existsSync(p)] *)
Definition fs_existsSync (p : string) : M bool :=
  fun w => (inr (bool_decide (p ∈ disk w)), w, []).

(** [fs.unlinkSync(p)]: throws when the file is missing or cannot be
    removed. *)
Definition fs_unlinkSync (p : string) : M unit :=
  fun w =>
    if bool_decide (p ∈ disk w) then
      if bool_decide (p ∈ undeletable w)
      then (inl (mkExn "EPERM: operation not permitted, unlink"), w,
            [UnlinkFailed p])
      else (inr tt, with_disk (disk w ∖ {[p]}) w, [FileUnlinked p])
    else (inl (mkExn "ENOENT: no such file or directory, unlink"), w,
          [UnlinkFailed p]).

(** The disk storage engine writing one received file.  The write itself
    is taken to succeed. *)
Definition fs_writeFile (p : string) : M unit :=
  fun w => (inr tt, with_disk ({[p]} ∪ disk w) w, [FileWritten p]).

(** One call to the database: it fails when the head of [dbFaults] says
    so. *)
Definition dbCall (op : string) : M unit :=
  fun w =>
    match dbFaults w with
    | true :: rest => (inl (mkExn (op +:+ ": database unavailable")),
                       with_dbFaults rest w, [])
    | false :: rest => (inr tt, with_dbFaults rest w, [])
    | [] => (inr tt, w, [])
    end.

(** [doc.save()]: validation first; then an insert of a new document
    (refused when the _id is taken) or a write of a loaded one.  The
    mapper sends no write for a loaded document without a changed path;
    here every valid save makes its call, which only matters to the entry
    of [dbFaults] a later call meets. *)
Definition save (d : Document) : M RecordDoc :=
  match validate d with
  | None => throw (mkExn "Record validation failed")
  | Some r =>
      dbCall "save" >>
      fun w =>
        match records w !! _id r, doc_isNew d with
        | None, true =>
            (inr r, with_records (<[_id r := r]> (records w)) w,
             [RecordInserted (_id r)])
        | Some _, true =>
            (inl (mkExn "E11000 duplicate key error"), w, [])
        | Some _, false =>
            (inr r, with_records (<[_id r := r]> (records w)) w,
             [RecordSaved (_id r)])
        | None, false =>
            (inl (mkExn "No document found for query"), w, [])
        end
  end.

(** [doc.deleteOne()] *)
Definition deleteOne (d : Document) : M unit :=
  dbCall "deleteOne" >>
  fun w => (inr tt, with_records (delete (doc_id d) (records w)) w,
            [RecordDeleted (doc_id d)]).

(** [Record.deleteMany({ user: owner })] *)
Definition Record_deleteMany (owner : string) : M unit :=
  dbCall "deleteMany" >>
  fun w =>
    (inr tt,
     with_records (filter (fun kv => user (snd kv) ≠ owner) (records w)) w,
     [RecordsDeletedOf owner]).

(** [User.findByIdAndDelete(id)] *)
Definition User_findByIdAndDelete (id : string) : M unit :=
  dbCall "findByIdAndDelete" >>
  fun w => (inr tt, with_users (users w ∖ {[id]}) w, [UserDeleted id]).

(** ** Requests and responses *)

(** A file received by the upload middleware.  [filename] is the name the
    storage engine generated for it (multer.js, [filename]: the time, a
    random suffix and the extension of [originalname]). *)
Record UploadedFile : Type := mkUploadedFile {
  originalname : string;
  filename : string
}.

(** [req.body] of a multipart request, as the client sends it with
    FormData: each text field is absent (undefined) or a string. *)
Record Body : Type := mkBody {
  body_title : option string;
  body_medicalHistory : option string;
  body_doctorNotes : option string;
  body_vitals : option string
}.

(** [req.files]: at most one file for each of the two named fields
    (routes/records.js, [maxCount: 1]). *)
Record Uploads : Type := mkUploads {
  files_labReport : option UploadedFile;
  files_prescription : option UploadedFile
}.

(** A request that passed the [protect] middleware: [req_user_id] is
    [req.user.id], [req_params_id] is [req.params.id]. *)
Record Request : Type := mkRequest {
  req_user_id : string;
  req_params_id : string;
  req_body : Body;
  req_files : Uploads
}.

Inductive Payload : Type :=
| Message (m : string)
| RecordJson (r : RecordDoc).

Record Response : Type := mkResponse {
  status : nat;
  payload : Payload
}.

(** ** multer.js *)

(** [storage.destination], from the backend directory. *)
Definition storage_destination (fieldname : string) : string :=
  if String.eqb fieldname "profile" then "/uploads/profile"
  else "/uploads/records".

(** The storage engine handling one file of a field. *)
Definition storeFile (fieldname : string) (f : UploadedFile) : M unit :=
  fs_writeFile (storage_destination fieldname +:+ "/" +:+ filename f).

(** [upload.fields([{name: "labReport", ...}, {name: "prescription", ...}])] *)
Definition upload_fields (req : Request) : M unit :=
  (match files_labReport (req_files req) with
   | Some f => storeFile "labReport" f
   | None => ret tt
   end) >>
  match files_prescription (req_files req) with
  | Some f => storeFile "prescription" f
  | None => ret tt
  end.

(** ** controllers/recordController.js *)

Definition buildPublicPath (folder filename : string) : string :=
  "/uploads/" +:+ folder +:+ "/" +:+ filename.

(** [path.join(__dirname, "..", publicPath)]: [__dirname] is the
    controllers directory, so the result is [publicPath] below the backend
    directory, which is how [disk] names files.  [path.join] also brings
    its result to normal form; the references the handlers store are built
    by [buildPublicPath] from the names multer gives and are in normal form
    already ([normalPath], [buildPublicPath_normal]), and for those the
    result is the reference itself. *)
Definition fullPathOf (publicPath : string) : string := publicPath.

Definition deleteFileIfExists (publicPath : string) : M unit :=
  if negb (truthy publicPath) then ret tt
  else
    let fullPath := fullPathOf publicPath in
    let* present := fs_existsSync fullPath in
    if (present : bool) then
      tryCatch (fs_unlinkSync fullPath)
        (fun err => console_warn ("Failed to delete file: " +:+ fullPath))
    else ret tt.

Section Handlers.

(** [JSON.parse]: [None] when it throws a SyntaxError. *)
Variable JSON_parse : string -> option json.

(** Whether a string casts to an ObjectId. *)
Variable isObjectId : string -> bool.

Definition JSON_parse_call (text : string) : M json :=
  emit (JsonParsed text) >>
  match JSON_parse text with
  | Some v => ret v
  | None => throw (mkExn "Unexpected token in JSON")
  end.

(** [Record.findById(id)]: the cast of [id] comes before the query.  The
    collection is keyed by the spelling in which an ObjectId prints itself
    ([canonicalId]); the lookup under [id] as given is the query of the
    code for an id in that spelling. *)
Definition Record_findById (id : string) : M (option Document) :=
  if isObjectId id then
    dbCall "findById" >>
    fun w => (inr (hydrate <$> records w !! id), w, [])
  else throw (mkExn "Cast to ObjectId failed").

(** [new Record({ user, title, medicalHistory, doctorNotes, vitals,
    files: {} })] with the generated _id [oid]; the schema defaults fill
    the undefined text fields and the files. *)
Definition new_Record (oid userId : string)
    (title medicalHistory doctorNotes : option string) (vitals : json)
  : Document :=
  set_vitals vitals
    (mkDocument true oid userId title (default "" medicalHistory)
       (default "" doctorNotes) (Some emptyVitals) noFiles false).

Definition createRecord (oid : string) (req : Request) : M Response :=
  tryCatch
    (let userId := req_user_id req in
     let b := req_body req in
     let* vitals :=
       match body_vitals b with
       | Some text =>
           if truthy text then JSON_parse_call text else ret (JObject [])
       | None => ret (JObject [])
       end in
     let record :=
       new_Record oid userId (body_title b) (body_medicalHistory b)
         (body_doctorNotes b) vitals in
     let record :=
       match files_labReport (req_files req) with
       | Some f => set_labReport (buildPublicPath "records" (filename f)) record
       | None => record
       end in
     let record :=
       match files_prescription (req_files req) with
       | Some f =>
           set_prescription (buildPublicPath "records" (filename f)) record
       | None => record
       end in
     let* saved := save record in
     ret (mkResponse 201 (RecordJson saved)))
    (fun err =>
       console_error "createRecord error:" >>
       ret (mkResponse 500 (Message "Create record failed"))).

(** The part of [updateRecord] after the ownership check. *)
Definition applyUpdate (req : Request) (record : Document) : M Response :=
  let b := req_body req in
  let record :=
    match body_title b with
    | Some t => set_title t record
    | None => record
    end in
  let record :=
    match body_medicalHistory b with
    | Some t => set_medicalHistory t record
    | None => record
    end in
  let record :=
    match body_doctorNotes b with
    | Some t => set_doctorNotes t record
    | None => record
    end in
  let* record :=
    match body_vitals b with
    | Some text =>
        if truthy text then
          let* v := JSON_parse_call text in ret (set_vitals v record)
        else ret record
    | None => ret record
    end in
  let* record :=
    match files_labReport (req_files req) with
    | Some f =>
        deleteFileIfExists (labReport (doc_files record)) >>
        ret (set_labReport (buildPublicPath "records" (filename f)) record)
    | None => ret record
    end in
  let* record :=
    match files_prescription (req_files req) with
    | Some f =>
        deleteFileIfExists (prescription (doc_files record)) >>
        ret (set_prescription (buildPublicPath "records" (filename f)) record)
    | None => ret record
    end in
  let* updated := save record in
  ret (mkResponse 200 (RecordJson updated)).

Definition updateRecord (req : Request) : M Response :=
  tryCatch
    (let* found := Record_findById (req_params_id req) in
     match found with
     | None => ret (mkResponse 404 (Message "Record not found"))
     | Some record =>
         let owner := String.eqb (doc_user record) (req_user_id req) in
         emit (OwnerChecked (doc_id record) owner) >>
         if negb owner then ret (mkResponse 401 (Message "Not authorized"))
         else applyUpdate req record
     end)
    (fun err =>
       console_error "updateRecord error:" >>
       ret (mkResponse 500 (Message "Update record failed"))).

Definition deleteRecord (req : Request) : M Response :=
  tryCatch
    (let* found := Record_findById (req_params_id req) in
     match found with
     | None => ret (mkResponse 404 (Message "Record not found"))
     | Some record =>
         let owner := String.eqb (doc_user record) (req_user_id req) in
         emit (OwnerChecked (doc_id record) owner) >>
         if negb owner then ret (mkResponse 401 (Message "Not authorized"))
         else
           deleteFileIfExists (labReport (doc_files record)) >>
           deleteFileIfExists (prescription (doc_files record)) >>
           deleteOne record >>
           ret (mkResponse 200 (Message "Record deleted successfully"))
     end)
    (fun err =>
       console_error "deleteRecord error:" >>
       ret (mkResponse 500 (Message "Delete record failed"))).

(** ** controllers/userController.js *)

Definition deleteAccount (req : Request) : M Response :=
  tryCatch
    (Record_deleteMany (req_user_id req) >>
     User_findByIdAndDelete (req_user_id req) >>
     ret (mkResponse 200 (Message "Account and records deleted")))
    (fun err => ret (mkResponse 500 (Message (message err)))).

(** ** routes/records.js and server.js *)

(** A middleware chain ends with the response of its handler; an error
    passed on by a middleware reaches the error handler of server.js. *)
Definition serve (m : M Response) (w : World)
  : Response * World * list Event :=
  match m w with
  | (inr res, w', evs) => (res, w', evs)
  | (inl err, w', evs) => (mkResponse 500 (Message "Server error"), w', evs)
  end.

(** [router.post("/", protect, upload.fields(...), createRecord)] *)
Definition route_post (oid : string) (req : Request) :=
  serve (upload_fields req >> createRecord oid req).

(** [router.put("/:id", protect, upload.fields(...), updateRecord)] *)
Definition route_put (req : Request) :=
  serve (upload_fields req >> updateRecord req).

(** [router.delete("/:id", protect, deleteRecord)] *)
Definition route_delete (req : Request) :=
  serve (deleteRecord req).

(** [router.delete('/delete', protect, deleteAccount)] *)
Definition route_deleteAccount (req : Request) :=
  serve (deleteAccount req).

End Handlers.

(** ** Reference instances of the two runtime parameters

    Used by the worked examples: a parser for the text the client sends
    ([JSON.stringify] of an object whose members are strings without
    escapes), which rejects every other text, and the 24 hexadecimal
    digits of an ObjectId. *)

Definition dquote : ascii := ascii_of_nat 34.
Definition backslash : ascii := ascii_of_nat 92.

(** The characters of a string literal after its opening quote, and the
    text after its closing quote. *)
Fixpoint readChars (s : string) : option (string * string) :=
  match s with
  | EmptyString => None
  | String c rest =>
      if Ascii.eqb c dquote then Some (EmptyString, rest)
      else if Ascii.eqb c backslash then None
      else if Nat.ltb (nat_of_ascii c) 32 then None
      else match readChars rest with
           | Some (str, rest') => Some (String c str, rest')
           | None => None
           end
  end.

Definition readQuoted (s : string) : option (string * string) :=
  match s with
  | String c rest => if Ascii.eqb c dquote then readChars rest else None
  | EmptyString => None
  end.

(** The text after the character [c], when the text starts with it. *)
Definition expect (c : ascii) (s : string) : option string :=
  match s with
  | String c0 rest => if Ascii.eqb c0 c then Some rest else None
  | EmptyString => None
  end.

Fixpoint readMembers (fuel : nat) (s : string) (acc : list (string * json))
  : option (list (string * json)) :=
  match fuel with
  | O => None
  | S fuel' =>
      match readQuoted s with
      | Some (k, s1) =>
          match expect ":"%char s1 with
          | Some s2 =>
              match readQuoted s2 with
              | Some (v, s3) =>
                  let acc' := setMember k (JString v) acc in
                  match s3 with
                  | String c EmptyString =>
                      if Ascii.eqb c "}"%char then Some acc' else None
                  | String c s4 =>
                      if Ascii.eqb c ","%char then readMembers fuel' s4 acc'
                      else None
                  | EmptyString => None
                  end
              | None => None
              end
          | None => None
          end
      | None => None
      end
  end.

Definition parseFlatObject (text : string) : option json :=
  match expect "{"%char text with
  | Some rest =>
      if String.eqb rest "}" then Some (JObject [])
      else JObject <$> readMembers (String.length rest) rest []
  | None => None
  end.

Definition isHexDigit (c : ascii) : bool :=
  let n := nat_of_ascii c in
  (Nat.leb 48 n && Nat.leb n 57) || (Nat.leb 97 n && Nat.leb n 102)
  || (Nat.leb 65 n && Nat.leb n 70).

Definition isHex24 (s : string) : bool :=
  Nat.eqb (String.length s) 24 && forallb isHexDigit (list_ascii_of_string s).

(** [JSON.stringify] of an object whose members are plain strings, as the
    client builds the vitals field. *)
Definition quoted (s : string) : string :=
  String dquote (s +:+ String dquote EmptyString).

Fixpoint stringifyMembers (ms : list (string * string)) : string :=
  match ms with
  | [] => EmptyString
  | [(k, v)] => quoted k +:+ ":" +:+ quoted v
  | (k, v) :: rest => quoted k +:+ ":" +:+ quoted v +:+ "," +:+ stringifyMembers rest
  end.

Definition stringify (ms : list (string * string)) : string :=
  "{" +:+ stringifyMembers ms +:+ "}".

(** ** Vocabulary of the statements *)

(** The responses of the record handlers, under the names of the error
    taxonomy. *)
Definition NotFoundError : Response :=
  mkResponse 404 (Message "Record not found").
Definition UnauthorizedError : Response :=
  mkResponse 401 (Message "Not authorized").
Definition CreateFailed : Response :=
  mkResponse 500 (Message "Create record failed").
Definition UpdateFailed : Response :=
  mkResponse 500 (Message "Update record failed").
Definition Deleted : Response :=
  mkResponse 200 (Message "Record deleted successfully").

(** The record with the given id exists and the repository serves the
    lookup: [findById] yields [r]. *)
Definition finds (isObjectId : string -> bool) (w : World) (id : string)
    (r : RecordDoc) : Prop :=
  isObjectId id = true ∧ head (dbFaults w) ≠ Some true ∧
  records w !! id = Some r ∧ _id r = id.

(** The vitals text a handler hands to [JSON.parse]: the body field when
    it is a non-empty string. *)
Definition vitalsText (b : Body) : option string :=
  match body_vitals b with
  | Some text => if truthy text then Some text else None
  | None => None
  end.

(** The request without its vitals field. *)
Definition dropVitals (req : Request) : Request :=
  mkRequest (req_user_id req) (req_params_id req)
    (mkBody (body_title (req_body req)) (body_medicalHistory (req_body req))
       (body_doctorNotes (req_body req)) None)
    (req_files req).

(** Where the upload middleware writes the files of a request, and the
    events of doing so. *)
Definition uploadTargets (req : Request) : list string :=
  match files_labReport (req_files req) with
  | Some f => [fullPathOf (buildPublicPath "records" (filename f))]
  | None => []
  end ++
  match files_prescription (req_files req) with
  | Some f => [fullPathOf (buildPublicPath "records" (filename f))]
  | None => []
  end.

Definition uploadedPaths (req : Request) : gset string :=
  list_to_set (uploadTargets req).

Definition uploadEvents (req : Request) : list Event :=
  FileWritten <$> uploadTargets req.

(** What [deleteFileIfExists p] leaves of the disk, and its events. *)
Definition unlinkResult (p : string) (w : World) : gset string * list Event :=
  if truthy p then
    if bool_decide (p ∈ disk w) then
      if bool_decide (p ∈ undeletable w)
      then (disk w, [UnlinkFailed p; Logged ("Failed to delete file: " +:+ p)])
      else (disk w ∖ {[p]}, [FileUnlinked p])
    else (disk w, [])
  else (disk w, []).

(** The same for a slot of an update: nothing happens without a new file. *)
Definition slotUnlink (newFile : option UploadedFile) (old : string)
    (w : World) : World * list Event :=
  match newFile with
  | Some _ => (with_disk (unlinkResult old w).1 w, (unlinkResult old w).2)
  | None => (w, [])
  end.

(** The world after one call to the database. *)
Definition afterDbCall (w : World) : World :=
  with_dbFaults (tail (dbFaults w)) w.

(** Whether the coming call to the database fails. *)
Definition dbFails (w : World) : bool :=
  match dbFaults w with
  | true :: _ => true
  | _ => false
  end.

(** The vitals field of a body gets through [parse]: either no text
    reaches the parser, or the text parses to a value; with the events of
    the step. *)
Inductive parses (parse : string -> option json) (b : Body)
  : option json -> list Event -> Prop :=
| parses_nothing :
    vitalsText b = None -> parses parse b None []
| parses_value text v :
    vitalsText b = Some text -> parse text = Some v ->
    parses parse b (Some v) [JsonParsed text].

(** An attempt to remove the file [p]. *)
Definition unlinkAttempt (p : string) (e : Event) : Prop :=
  e = FileUnlinked p ∨ e = UnlinkFailed p.

(** A change of the attachment store. *)
Definition storeMutation (e : Event) : Prop :=
  ∃ p, e = FileWritten p ∨ e = FileUnlinked p.

(** The document [updateRecord] hands to [save] when the vitals text, if
    any, parsed to [parsed]. *)
Definition updatedDocument (parsed : option json) (req : Request)
    (d : Document) : Document :=
  let b := req_body req in
  let d := match body_title b with Some t => set_title t d | None => d end in
  let d := match body_medicalHistory b with
           | Some t => set_medicalHistory t d
           | None => d
           end in
  let d := match body_doctorNotes b with
           | Some t => set_doctorNotes t d
           | None => d
           end in
  let d := match parsed with Some v => set_vitals v d | None => d end in
  let d := match files_labReport (req_files req) with
           | Some f => set_labReport (buildPublicPath "records" (filename f)) d
           | None => d
           end in
  match files_prescription (req_files req) with
  | Some f => set_prescription (buildPublicPath "records" (filename f)) d
  | None => d
  end.

(** The document [createRecord] hands to [save]. *)
Definition createdDocument (parsed : option json) (oid : string)
    (req : Request) : Document :=
  let b := req_body req in
  let d := new_Record oid (req_user_id req) (body_title b)
             (body_medicalHistory b) (body_doctorNotes b)
             (default (JObject []) parsed) in
  let d := match files_labReport (req_files req) with
           | Some f => set_labReport (buildPublicPath "records" (filename f)) d
           | None => d
           end in
  match files_prescription (req_files req) with
  | Some f => set_prescription (buildPublicPath "records" (filename f)) d
  | None => d
  end.

(** ** Worked inputs *)

Module Ex.

Definition alice : string := "aaaaaaaaaaaaaaaaaaaaaaaa".
Definition bob : string := "bbbbbbbbbbbbbbbbbbbbbbbb".
Definition rid : string := "64b7f0c2a1d3e4f5a6b7c8d9".
Definition rid2 : string := "64b7f0c2a1d3e4f5a6b7c8da".

Definition oldLab : string := "/uploads/records/1700000000000-k3j9x1a.pdf".
Definition oldRx : string := "/uploads/records/1700000000001-p0q8z2b.png".

(** Alice's record, with a lab report and a prescription on disk. *)
Definition checkup : RecordDoc :=
  mkRecordDoc rid alice "Checkup" "asthma" "rest"
    (Some (mkVitals (Some "120/80") (Some "70") None None None))
    (mkFiles oldLab oldRx).

Definition world : World :=
  mkWorld {[ rid := checkup ]} {[ alice; bob ]} {[ oldLab; oldRx ]} ∅ [].

(** The same world with a database that fails its next call. *)
Definition worldDbDown : World :=
  mkWorld {[ rid := checkup ]} {[ alice; bob ]} {[ oldLab; oldRx ]} ∅ [true].

(** The same world where the lab report cannot be removed. *)
Definition worldLocked : World :=
  mkWorld {[ rid := checkup ]} {[ alice; bob ]} {[ oldLab; oldRx ]}
    {[ oldLab ]} [].

Definition newLab : UploadedFile :=
  mkUploadedFile "report.pdf" "1700000500000-m4n5b6v.pdf".
Definition newLabPath : string :=
  "/uploads/records/1700000500000-m4n5b6v.pdf".

Definition noBody : Body := mkBody None None None None.
Definition noUploads : Uploads := mkUploads None None.

Definition request (caller : string) (b : Body) (u : Uploads) : Request :=
  mkRequest caller rid b u.

(** Update requests of the owner. *)
Definition emptyTitle : Request :=
  request alice (mkBody (Some "") None None None) noUploads.
Definition clearHistory : Request :=
  request alice (mkBody None (Some "") None None) noUploads.
Definition heartRateOnly : Request :=
  request alice
    (mkBody None None None (Some (stringify [("heartRate", "75")])))
    noUploads.
Definition emptyVitalsField : Request :=
  request alice (mkBody (Some "Checkup 2") None None (Some "")) noUploads.
Definition replaceLab : Request :=
  request alice noBody (mkUploads (Some newLab) None).
Definition plainDelete : Request := request alice noBody noUploads.

(** Requests of another user on Alice's record. *)
Definition foreignUpload : Request :=
  request bob noBody (mkUploads (Some newLab) None).
Definition foreignDelete : Request := request bob noBody noUploads.

(** Create requests. *)
Definition createNoTitle : Request :=
  mkRequest alice "" (mkBody None (Some "asthma") None None) noUploads.
Definition createBadVitals : Request :=
  mkRequest alice ""
    (mkBody (Some "Checkup") None None (Some "{oops"))
    (mkUploads (Some newLab) None).
Definition createValid : Request :=
  mkRequest alice "" (mkBody (Some "Checkup") None None None) noUploads.
Definition createEmptyVitals : Request :=
  mkRequest alice "" (mkBody (Some "Checkup") None None (Some "")) noUploads.

End Ex.

(** ** Further vocabulary *)

(** The spelling in which an ObjectId prints itself, and in which the
    records collection is keyed: 24 lower-case hexadecimal digits.
    [findById] casts the id of the request to an ObjectId before it looks
    the record up; for an id in this spelling the ObjectId prints as the id
    itself, so the record looked up is the one filed under the id as
    given. *)
Definition isLowerHexDigit (c : ascii) : bool :=
  let n := nat_of_ascii c in
  (Nat.leb 48 n && Nat.leb n 57) || (Nat.leb 97 n && Nat.leb n 102).

Definition canonicalId (s : string) : bool :=
  Nat.eqb (String.length s) 24
  && forallb isLowerHexDigit (list_ascii_of_string s).

(** The names of a path between its separators: ["/a/b"] has the names
    [""], ["a"] and ["b"]. *)
Fixpoint segments (p : string) : list string :=
  match p with
  | EmptyString => [EmptyString]
  | String c rest =>
      if Ascii.eqb c "/"%char then EmptyString :: segments rest
      else match segments rest with
           | name :: names => String c name :: names
           | [] => [String c EmptyString]
           end
  end.

(** A name that [path.join] keeps as it is: not empty, not ["."] and not
    [".."]. *)
Definition properName (name : string) : bool :=
  truthy name && negb (String.eqb name ".") && negb (String.eqb name "..").

(** A public path in normal form: a leading separator, then proper names
    with one separator between them.  For such a path
    [path.join(__dirname, "..", publicPath)] is the path itself below the
    backend directory, which is what [fullPathOf] returns. *)
Definition normalPath (p : string) : bool :=
  match segments p with
  | EmptyString :: name :: names => forallb properName (name :: names)
  | _ => false
  end.

(** Whether a name holds a separator. *)
Fixpoint hasSeparator (name : string) : bool :=
  match name with
  | EmptyString => false
  | String c rest => Ascii.eqb c "/"%char || hasSeparator rest
  end.

(** The records collection is keyed by the _id of its documents, and every
    stored title is non-empty. *)
Definition wellFormed (w : World) : Prop :=
  ∀ id r, records w !! id = Some r -> _id r = id ∧ title r ≠ "".

(** ** controllers/recordController.js: the listing handler *)

Inductive ListPayload : Type :=
| ListMessage (m : string)
| RecordsJson (rs : list RecordDoc).

Record ListResponse : Type := mkListResponse {
  list_status : nat;
  list_payload : ListPayload
}.

Section Listing.

(** The creation time the mapper recorded for the record with a given _id
    (its [createdAt]). *)
Variable createdAt : string -> nat.

(** The order of [.sort({ createdAt: -1 })]: a record comes before the
    records created no later than it. *)
Definition newerFirst (a b : RecordDoc) : Prop :=
  (createdAt (_id b) <= createdAt (_id a))%nat.

Definition newerFirst_dec (a b : RecordDoc) : Decision (newerFirst a b) :=
  decide (createdAt (_id b) <= createdAt (_id a))%nat.

(** [Record.find({ user: owner }).sort({ createdAt: -1 }).lean()] *)
Definition Record_find_sorted (owner : string) : M (list RecordDoc) :=
  dbCall "find" >>
  fun w =>
    (inr (@merge_sort _ newerFirst newerFirst_dec
            (map_to_list
               (filter (fun kv => user (snd kv) = owner) (records w))).*2),
     w, []).

Definition getRecords (req : Request) : M ListResponse :=
  tryCatch
    (let* records := Record_find_sorted (req_user_id req) in
     ret (mkListResponse 200 (RecordsJson records)))
    (fun err =>
       console_error "getRecords error:" >>
       ret (mkListResponse 500 (ListMessage "Fetch records failed"))).

(** [router.get("/", protect, getRecords)] *)
Definition route_get (req : Request) (w : World)
  : ListResponse * World * list Event :=
  match getRecords req w with
  | (inr res, w', evs) => (res, w', evs)
  | (inl err, w', evs) =>
      (mkListResponse 500 (ListMessage "Server error"), w', evs)
  end.

End Listing.

(** ** controllers/userController.js: profile and password

    The User model (models/User.js), the [protect] middleware and bcrypt
    are not part of the sources at hand.  A request carries [req.user] as
    [protect] loaded it; the two calls into the User model and the call to
    [bcrypt.compare] are parameters of the handlers. *)

(** The paths of a user document the handlers read or write. *)
Record UserDoc : Type := mkUserDoc {
  u_id : string;
  u_name : string;
  u_email : string;
  u_password : string;
  u_profilePicture : option string
}.

(** [req.file] as [upload.single] leaves it. *)
Record ReceivedFile : Type := mkReceivedFile {
  fieldname : string;
  received : UploadedFile
}.

(** A request to the users routes: [req.user], the fields of [req.body]
    the handlers read, and [req.file]. *)
Record UserRequest : Type := mkUserRequest {
  ureq_user : UserDoc;
  ureq_name : option string;
  ureq_email : option string;
  ureq_oldPassword : option string;
  ureq_newPassword : option string;
  ureq_file : option ReceivedFile
}.

Inductive UserPayload : Type :=
| UserMessage (m : string)
| UserJson (id name email : string) (profilePicture : option string).

Record UserResponse : Type := mkUserResponse {
  user_status : nat;
  user_payload : UserPayload
}.

Definition set_u_name_email (n e : string) (u : UserDoc) : UserDoc :=
  mkUserDoc (u_id u) n e (u_password u) (u_profilePicture u).

Definition set_u_profilePicture (p : string) (u : UserDoc) : UserDoc :=
  mkUserDoc (u_id u) (u_name u) (u_email u) (u_password u) (Some p).

Definition set_u_password (p : string) (u : UserDoc) : UserDoc :=
  mkUserDoc (u_id u) (u_name u) (u_email u) p (u_profilePicture u).

(** [!s] on a body field that is absent or a string. *)
Definition falsy (s : option string) : bool :=
  match s with
  | Some t => negb (truthy t)
  | None => true
  end.

Section UserHandlers.

(** [User.findOne({ email, _id: { $ne: id } })] *)
Variable User_findOne_other : string -> string -> M (option UserDoc).

(** [req.user.save()], yielding the document as saved. *)
Variable User_save : UserDoc -> M UserDoc.

(** [bcrypt.compare(plain, hash)] *)
Variable bcrypt_compare : string -> string -> M bool.

Definition updateProfile (req : UserRequest) : M UserResponse :=
  tryCatch
    (let name := ureq_name req in
     let email := ureq_email req in
     if falsy name || falsy email then
       ret (mkUserResponse 400 (UserMessage "Name and email required"))
     else
       let name := default "" name in
       let email := default "" email in
       let* existing := User_findOne_other email (u_id (ureq_user req)) in
       match existing with
       | Some _ =>
           ret (mkUserResponse 400 (UserMessage "Email already in use"))
       | None =>
           let user := set_u_name_email name email (ureq_user req) in
           let user :=
             match ureq_file req with
             | Some file =>
                 if String.eqb (fieldname file) "profile" then
                   set_u_profilePicture
                     ("/uploads/profilePictures/" +:+ filename (received file))
                     user
                 else user
             | None => user
             end in
           let* saved := User_save user in
           ret (mkUserResponse 200
                  (UserJson (u_id saved) (u_name saved) (u_email saved)
                     (u_profilePicture saved)))
       end)
    (fun err => ret (mkUserResponse 500 (UserMessage (message err)))).

Definition changePassword (req : UserRequest) : M UserResponse :=
  tryCatch
    (let oldPassword := ureq_oldPassword req in
     let newPassword := ureq_newPassword req in
     if falsy oldPassword || falsy newPassword then
       ret (mkUserResponse 400 (UserMessage "Old and new password required"))
     else
       let oldPassword := default "" oldPassword in
       let newPassword := default "" newPassword in
       let* matched :=
         bcrypt_compare oldPassword (u_password (ureq_user req)) in
       if negb matched then
         ret (mkUserResponse 401 (UserMessage "Old password incorrect"))
       else
         let user := set_u_password newPassword (ureq_user req) in
         let* saved := User_save user in
         ret (mkUserResponse 200 (UserMessage "Password changed")))
    (fun err => ret (mkUserResponse 500 (UserMessage (message err)))).

(** ** routes/users.js *)

(** [upload.single('profile')]: a file under another field name is an
    error of the middleware. *)
Definition upload_single (req : UserRequest) : M unit :=
  match ureq_file req with
  | Some file =>
      if String.eqb (fieldname file) "profile"
      then storeFile "profile" (received file)
      else throw (mkExn "Unexpected field")
  | None => ret tt
  end.

Definition serveUser (m : M UserResponse) (w : World)
  : UserResponse * World * list Event :=
  match m w with
  | (inr res, w', evs) => (res, w', evs)
  | (inl err, w', evs) =>
      (mkUserResponse 500 (UserMessage "Server error"), w', evs)
  end.

(** [router.put('/update', protect, upload.single('profile'), updateProfile)] *)
Definition route_updateProfile (req : UserRequest) :=
  serveUser (upload_single req >> updateProfile req).

(** [router.put('/change-password', protect, changePassword)] *)
Definition route_changePassword (req : UserRequest) :=
  serveUser (changePassword req).

End UserHandlers.

(** ** server.js: the origin check of the CORS options *)

(** [hay.includes(needle)] *)
Fixpoint includes (needle hay : string) : bool :=
  String.prefix needle hay
  || match hay with
     | EmptyString => false
     | String _ rest => includes needle rest
     end.

(** [s.replace(/\*/g, '.*')] *)
Fixpoint starsToWildcards (s : string) : string :=
  match s with
  | EmptyString => EmptyString
  | String c rest =>
      if Ascii.eqb c "*"%char then ".*" +:+ starsToWildcards rest
      else String c (starsToWildcards rest)
  end.

Definition allowedOrigins : list string :=
  [ "http://localhost:8081";
    "http://localhost:19006";
    "http://localhost:19000";
    "http://localhost:3000";
    "exp://*";
    "http://192.168.*.*:*";
    "https://health-vault-one.vercel.app/api" ].

Section Cors.

(** [new RegExp(pattern).test(s)] *)
Variable regexTest : string -> string -> bool.

Definition isAllowed (origin : string) : bool :=
  existsb
    (fun allowed =>
       if includes "*" allowed
       then regexTest (starsToWildcards allowed) origin
       else String.eqb origin allowed)
    allowedOrigins.

(** The [origin] function of [corsOptions]: the verdict handed to the
    callback and the warnings logged.  [None] is a request without Origin
    header. *)
Definition corsOrigin (origin : option string) : bool * list string :=
  match origin with
  | None => (true, [])
  | Some o =>
      if negb (truthy o) then (true, [])
      else if isAllowed o || includes "localhost" o || includes "192.168" o
      then (true, [])
      else (true, ["CORS blocked origin: " +:+ o])
  end.

End Cors.

(** ** Further worked inputs *)

Module Ex2.

(** A create request of Alice with a lab report. *)
Definition createWithLab : Request :=
  mkRequest Ex.alice "" (mkBody (Some "Checkup") None (Some "rest") None)
    (mkUploads (Some Ex.newLab) None).

(** Alice's delete request for the record created under [Ex.rid2]. *)
Definition deleteCreated : Request :=
  mkRequest Ex.alice Ex.rid2 Ex.noBody Ex.noUploads.

(** Requests for an id without record and for a malformed id. *)
Definition updateAbsent : Request :=
  mkRequest Ex.alice Ex.rid2 (mkBody (Some "X") None None None) Ex.noUploads.
Definition updateMalformed : Request :=
  mkRequest Ex.alice "42" (mkBody (Some "X") None None None) Ex.noUploads.

(** Alice's world with a database that serves the lookup and fails the
    next call. *)
Definition worldSecondCallFails : World :=
  mkWorld {[ Ex.rid := Ex.checkup ]} {[ Ex.alice; Ex.bob ]}
    {[ Ex.oldLab; Ex.oldRx ]} ∅ [false; true].

(** A record of Bob beside Alice's. *)
Definition bobsRecord : RecordDoc :=
  mkRecordDoc Ex.rid2 Ex.bob "Flu" "" "" (Some emptyVitals) noFiles.

Definition sharedWorld : World :=
  mkWorld {[ Ex.rid := Ex.checkup; Ex.rid2 := bobsRecord ]}
    {[ Ex.alice; Ex.bob ]} {[ Ex.oldLab; Ex.oldRx ]} ∅ [].

(** Creation times for the listing: Alice's record is the oldest. *)
Definition createdAt (id : string) : nat :=
  if String.eqb id Ex.rid then 1 else 2.

(** A User model that knows no other user and saves what it is given, and
    a comparison of plain passwords. *)
Definition findNoOne (email id : string) : M (option UserDoc) := ret None.
Definition saveAsGiven (u : UserDoc) : M UserDoc := ret u.
Definition comparePlain (plain stored : string) : M bool :=
  ret (String.eqb plain stored).

Definition ann : UserDoc :=
  mkUserDoc Ex.alice "Ann" "ann@example.org" "secret" None.
Definition carl : UserDoc :=
  mkUserDoc Ex.bob "Carl" "carl@example.org" "hidden" None.

(** A User model that finds Carl under any email. *)
Definition findCarl (email id : string) : M (option UserDoc) :=
  ret (Some carl).

Definition picture : UploadedFile :=
  mkUploadedFile "me.png" "1700000900000-q1w2e3r.png".

Definition profileWithoutName : UserRequest :=
  mkUserRequest ann None (Some "ann@example.org") None None
    (Some (mkReceivedFile "profile" picture)).
Definition profileWithPicture : UserRequest :=
  mkUserRequest ann (Some "Ann B") (Some "annb@example.org") None None
    (Some (mkReceivedFile "profile" picture)).
Definition passwordWrong : UserRequest :=
  mkUserRequest ann None None (Some "guess") (Some "next") None.
Definition passwordRight : UserRequest :=
  mkUserRequest ann None None (Some "secret") (Some "next") None.

End Ex2.

(** * Properties *)

(** ** The runtime primitives *)

Lemma with_disk_id w : with_disk (disk w) w = w.
Proof. by destruct w. Qed.

Lemma dbCall_run op w :
  dbCall op w
  = (if dbFails w then inl (mkExn (op +:+ ": database unavailable"))
     else inr tt, afterDbCall w, []).
Proof.
  unfold dbCall, dbFails, afterDbCall, with_dbFaults.
  destruct w as [rs us d ud fs]; simpl.
  by destruct fs as [|[] fs].
Qed.

Lemma dbFails_head w : dbFails w = false ↔ head (dbFaults w) ≠ Some true.
Proof.
  unfold dbFails. destruct (dbFaults w) as [|[] fs]; simpl; split;
    intros; congruence.
Qed.

Lemma deleteFileIfExists_run p w :
  deleteFileIfExists p w
  = (inr tt, with_disk (unlinkResult p w).1 w, (unlinkResult p w).2).
Proof.
  unfold deleteFileIfExists, unlinkResult, fullPathOf.
  destruct (truthy p); simpl; [| by rewrite with_disk_id].
  unfold bind, fs_existsSync, tryCatch, fs_unlinkSync, console_warn, emit.
  destruct (bool_decide (p ∈ disk w)) eqn:Hd; simpl; rewrite ?Hd;
    [| by rewrite with_disk_id].
  destruct (bool_decide (p ∈ undeletable w)); simpl; [| done].
  by rewrite with_disk_id.
Qed.

Lemma upload_path_lab f :
  storage_destination "labReport" +:+ "/" +:+ filename f
  = fullPathOf (buildPublicPath "records" (filename f)).
Proof. reflexivity. Qed.

Lemma upload_path_prescription f :
  storage_destination "prescription" +:+ "/" +:+ filename f
  = fullPathOf (buildPublicPath "records" (filename f)).
Proof. reflexivity. Qed.

Lemma upload_fields_run req w :
  upload_fields req w
  = (inr tt, with_disk (uploadedPaths req ∪ disk w) w, uploadEvents req).
Proof.
  unfold upload_fields, uploadedPaths, uploadEvents, uploadTargets, bind,
    storeFile, fs_writeFile, ret.
  destruct w as [rs us d ud fs].
  destruct (files_labReport (req_files req)) as [f|],
    (files_prescription (req_files req)) as [g|]; simpl;
    unfold with_disk; simpl;
    rewrite ?upload_path_lab, ?upload_path_prescription;
    do 2 f_equal; f_equal; set_solver.
Qed.

Lemma save_run d w :
  save d w
  = match validate d with
    | None => (inl (mkExn "Record validation failed"), w, [])
    | Some r =>
        if dbFails w
        then (inl (mkExn ("save" +:+ ": database unavailable")),
              afterDbCall w, [])
        else
          match records w !! _id r, doc_isNew d with
          | None, true =>
              (inr r, with_records (<[_id r := r]> (records w)) (afterDbCall w),
               [RecordInserted (_id r)])
          | Some _, true =>
              (inl (mkExn "E11000 duplicate key error"), afterDbCall w, [])
          | Some _, false =>
              (inr r, with_records (<[_id r := r]> (records w)) (afterDbCall w),
               [RecordSaved (_id r)])
          | None, false =>
              (inl (mkExn "No document found for query"), afterDbCall w, [])
          end
    end.
Proof.
  unfold save. destruct (validate d) as [r|]; [| done].
  unfold bind. rewrite dbCall_run.
  destruct (dbFails w); [done |].
  change (records (afterDbCall w)) with (records w).
  by destruct (records w !! _id r), (doc_isNew d).
Qed.

(** *** What removing a file changes *)

Lemma slotUnlink_frame nf old w :
  records (slotUnlink nf old w).1 = records w
  ∧ users (slotUnlink nf old w).1 = users w
  ∧ undeletable (slotUnlink nf old w).1 = undeletable w
  ∧ dbFaults (slotUnlink nf old w).1 = dbFaults w.
Proof. unfold slotUnlink. by destruct nf. Qed.

Lemma unlinkResult_disk p w q :
  q ∈ (unlinkResult p w).1 ↔
  q ∈ disk w ∧ (q = p -> truthy p = true -> p ∈ undeletable w).
Proof.
  unfold unlinkResult.
  destruct (truthy p) eqn:Ht; simpl; [| naive_solver].
  destruct (bool_decide (p ∈ disk w)) eqn:Hd; simpl.
  - destruct (bool_decide (p ∈ undeletable w)) eqn:Hu; simpl.
    + apply bool_decide_eq_true in Hu. naive_solver.
    + apply bool_decide_eq_false in Hu. set_solver.
  - apply bool_decide_eq_false in Hd. naive_solver.
Qed.

Lemma unlinkResult_attempt p w :
  truthy p = true -> p ∈ disk w ->
  ∃ e, e ∈ (unlinkResult p w).2 ∧ unlinkAttempt p e.
Proof.
  intros Ht Hd. unfold unlinkResult, unlinkAttempt. rewrite Ht.
  rewrite (bool_decide_eq_true_2 _ Hd).
  destruct (bool_decide (p ∈ undeletable w)); simpl.
  - exists (UnlinkFailed p). split; [set_solver | by right].
  - exists (FileUnlinked p). split; [set_solver | by left].
Qed.

Lemma slotUnlink_disk nf old w q :
  q ∈ disk (slotUnlink nf old w).1 ↔
  q ∈ disk w
  ∧ (is_Some nf -> q = old -> truthy old = true -> old ∈ undeletable w).
Proof.
  unfold slotUnlink. destruct nf as [f|]; simpl.
  - rewrite unlinkResult_disk. naive_solver.
  - split; [| naive_solver]. intros H. split; [done |]. by intros [? [=]].
Qed.

Lemma slotUnlink_attempt f old w :
  truthy old = true -> old ∈ disk w ->
  ∃ e, e ∈ (slotUnlink (Some f) old w).2 ∧ unlinkAttempt old e.
Proof. apply unlinkResult_attempt. Qed.

Lemma slotUnlink_no_parse nf old w text :
  JsonParsed text ∉ (slotUnlink nf old w).2.
Proof.
  unfold slotUnlink, unlinkResult. repeat case_match; simpl; set_solver.
Qed.

(** *** What validation lets through *)

Lemma validate_updated parsed req r r' :
  validate (updatedDocument parsed req (hydrate r)) = Some r' ->
  _id r' = _id r ∧ user r' = user r
  ∧ title r' = default (title r) (body_title (req_body req))
  ∧ truthy (title r') = true
  ∧ medicalHistory r'
    = default (medicalHistory r) (body_medicalHistory (req_body req))
  ∧ doctorNotes r' = default (doctorNotes r) (body_doctorNotes (req_body req))
  ∧ match parsed with
    | Some v => castVitals v = Some (vitals r')
    | None => vitals r' = vitals r
    end
  ∧ labReport (files r')
    = match files_labReport (req_files req) with
      | Some f => buildPublicPath "records" (filename f)
      | None => labReport (files r)
      end
  ∧ prescription (files r')
    = match files_prescription (req_files req) with
      | Some f => buildPublicPath "records" (filename f)
      | None => prescription (files r)
      end.
Proof.
  unfold validate, updatedDocument, hydrate.
  destruct (body_title (req_body req)) as [t|],
    (body_medicalHistory (req_body req)) as [mh|],
    (body_doctorNotes (req_body req)) as [dn|],
    (files_labReport (req_files req)) as [f|],
    (files_prescription (req_files req)) as [g|],
    parsed as [v|]; simpl; unfold set_vitals;
    try destruct (castVitals v) as [vt|]; simpl; try done;
    match goal with
    | |- context [truthy ?t] => destruct (truthy t) eqn:Ht; [| done]
    end;
    intros [= <-]; simpl; by rewrite ?Ht.
Qed.

Lemma updatedDocument_isNew parsed req d :
  doc_isNew (updatedDocument parsed req d) = doc_isNew d.
Proof.
  unfold updatedDocument.
  destruct (body_title (req_body req)), (body_medicalHistory (req_body req)),
    (body_doctorNotes (req_body req)), (files_labReport (req_files req)),
    (files_prescription (req_files req)), parsed as [v|]; simpl;
    unfold set_vitals; try destruct (castVitals v); reflexivity.
Qed.

Lemma validate_updated_plain req r :
  truthy (default (title r) (body_title (req_body req))) = true ->
  is_Some (validate (updatedDocument None req (hydrate r))).
Proof.
  unfold validate, updatedDocument, hydrate.
  destruct (body_title (req_body req)) as [t|],
    (body_medicalHistory (req_body req)) as [mh|],
    (body_doctorNotes (req_body req)) as [dn|],
    (files_labReport (req_files req)) as [f|],
    (files_prescription (req_files req)) as [g|]; simpl;
    intros ->; eauto.
Qed.

Lemma truthy_empty s : truthy s = false ↔ s = "".
Proof. destruct s; simpl; split; congruence. Qed.

Lemma dbFails_after_nil w : dbFaults w = [] -> dbFails (afterDbCall w) = false.
Proof. unfold dbFails, afterDbCall. simpl. by intros ->. Qed.

(** *** Order of events *)

Lemma uploadEvents_written req e :
  e ∈ uploadEvents req -> ∃ p, e = FileWritten p.
Proof.
  unfold uploadEvents. intros (p & -> & _)%list_elem_of_fmap. by exists p.
Qed.

Lemma attempt_after_check (pre rest : list Event) rid i e p :
  (∀ e', e' ∈ pre -> ¬ unlinkAttempt p e') ->
  (pre ++ OwnerChecked rid true :: rest) !! i = Some e ->
  unlinkAttempt p e ->
  ∃ j rid', j < i
    ∧ (pre ++ OwnerChecked rid true :: rest) !! j
      = Some (OwnerChecked rid' true).
Proof.
  intros Hpre Hi He. exists (length pre), rid.
  split; [| by rewrite list_lookup_middle].
  destruct (decide (i < length pre)) as [Hlt|Hge].
  - rewrite lookup_app_l in Hi by done.
    exfalso. eapply Hpre; [| done]. by eapply list_elem_of_lookup_2.
  - destruct (decide (i = length pre)) as [->|Hne]; [| lia].
    rewrite list_lookup_middle in Hi by done.
    injection Hi as <-. by destruct He.
Qed.

Lemma no_attempt_vacuous (evs : list Event) i e p :
  (∀ e', e' ∈ evs -> ¬ unlinkAttempt p e') ->
  evs !! i = Some e -> unlinkAttempt p e ->
  ∃ j rid', j < i ∧ evs !! j = Some (OwnerChecked rid' true).
Proof.
  intros Hno Hi He. exfalso. eapply Hno; [| done].
  by eapply list_elem_of_lookup_2.
Qed.

(** Closes [∀ e, e ∈ l -> ¬ unlinkAttempt p e] for an explicit list [l]
    of other events. *)
Ltac no_attempt_in_list :=
  let e := fresh "e" in
  let Hin := fresh "Hin" in
  let Hat := fresh "Hat" in
  intros e Hin Hat; destruct Hat; subst;
  repeat (apply elem_of_cons in Hin as [Hin | Hin]; [discriminate |]);
  by apply elem_of_nil in Hin.

Lemma uploads_then_plain req (tl : list Event) p e :
  (∀ e', e' ∈ tl -> ¬ unlinkAttempt p e') ->
  e ∈ uploadEvents req ++ tl -> ¬ unlinkAttempt p e.
Proof.
  intros Htl [Hin | Hin]%elem_of_app; [| by apply Htl].
  apply uploadEvents_written in Hin as (q & ->). by intros [|].
Qed.

Lemma afterDbCall_nil w : dbFaults w = [] -> afterDbCall w = w.
Proof. destruct w as [rs us d ud fs]. simpl. by intros ->. Qed.

Lemma dbFails_nil w : dbFaults w = [] -> dbFails w = false.
Proof. unfold dbFails. by intros ->. Qed.


Lemma save_disk d w res w' evs :
  save d w = (res, w', evs) -> disk w' = disk w.
Proof.
  rewrite save_run. intros H. repeat case_match; by simplify_eq.
Qed.

Lemma validate_created parsed oid req r' :
  validate (createdDocument parsed oid req) = Some r' ->
  _id r' = oid ∧ user r' = req_user_id req
  ∧ body_title (req_body req) = Some (title r')
  ∧ truthy (title r') = true
  ∧ medicalHistory r' = default "" (body_medicalHistory (req_body req))
  ∧ doctorNotes r' = default "" (body_doctorNotes (req_body req))
  ∧ castVitals (default (JObject []) parsed) = Some (vitals r')
  ∧ labReport (files r')
    = match files_labReport (req_files req) with
      | Some f => buildPublicPath "records" (filename f)
      | None => ""
      end
  ∧ prescription (files r')
    = match files_prescription (req_files req) with
      | Some f => buildPublicPath "records" (filename f)
      | None => ""
      end.
Proof.
  unfold validate, createdDocument, new_Record.
  destruct (body_title (req_body req)) as [t|],
    (files_labReport (req_files req)) as [f|],
    (files_prescription (req_files req)) as [g|]; simpl; unfold set_vitals;
    destruct (castVitals (default (JObject []) parsed)) as [vt|]; simpl;
    try done;
    destruct (truthy t) eqn:Ht; try done;
    intros [= <-]; simpl; by rewrite ?Ht.
Qed.

Lemma createdDocument_isNew parsed oid req :
  doc_isNew (createdDocument parsed oid req) = true.
Proof.
  unfold createdDocument, new_Record, set_vitals.
  by destruct (files_labReport (req_files req)),
    (files_prescription (req_files req)), (castVitals _).
Qed.

Section Properties.

Variable JSON_parse : string -> option json.
Variable isObjectId : string -> bool.

Lemma findById_run id w :
  Record_findById isObjectId id w
  = if isObjectId id then
      (if dbFails w
       then inl (mkExn ("findById" +:+ ": database unavailable"))
       else inr (hydrate <$> records w !! id), afterDbCall w, [])
    else (inl (mkExn "Cast to ObjectId failed"), w, []).
Proof.
  unfold Record_findById. destruct (isObjectId id); [| done].
  unfold bind. rewrite dbCall_run. by destruct (dbFails w).
Qed.

Lemma applyUpdate_bad req d w text :
  vitalsText (req_body req) = Some text ->
  JSON_parse text = None ->
  applyUpdate JSON_parse req d w
  = (inl (mkExn "Unexpected token in JSON"), w, [JsonParsed text]).
Proof.
  unfold vitalsText, applyUpdate. intros Ht Hp.
  destruct (body_vitals (req_body req)) as [t|]; [| done].
  destruct (truthy t); [| done]. injection Ht as ->.
  unfold bind, JSON_parse_call, emit, throw. simpl. by rewrite Hp.
Qed.

Lemma applyUpdate_good req d w parsed evp :
  parses JSON_parse (req_body req) parsed evp ->
  applyUpdate JSON_parse req d w
  = let s1 := slotUnlink (files_labReport (req_files req))
                (labReport (doc_files d)) w in
    let s2 := slotUnlink (files_prescription (req_files req))
                (prescription (doc_files d)) s1.1 in
    match save (updatedDocument parsed req d) s2.1 with
    | (inr u, w3, e3) =>
        (inr (mkResponse 200 (RecordJson u)), w3, evp ++ s1.2 ++ s2.2 ++ e3)
    | (inl e, w3, e3) => (inl e, w3, evp ++ s1.2 ++ s2.2 ++ e3)
    end.
Proof.
  intros Hp. unfold applyUpdate, updatedDocument, slotUnlink.
  set (d1 := match body_doctorNotes (req_body req) with
             | Some t => set_doctorNotes t _
             | None => _
             end).
  assert (Hv :
    (match body_vitals (req_body req) with
     | Some text =>
         if truthy text
         then let* v := JSON_parse_call JSON_parse text in
              ret (set_vitals v d1)
         else ret d1
     | None => ret d1
     end) w
    = (inr (match parsed with Some v => set_vitals v d1 | None => d1 end),
       w, evp)).
  { destruct Hp as [Hn | text v Ht Hv]; unfold vitalsText in *;
      destruct (body_vitals (req_body req)) as [t|]; try done;
      destruct (truthy t); try done.
    injection Ht as ->.
    unfold bind, JSON_parse_call, emit, ret. simpl. by rewrite Hv. }
  unfold bind at 1. rewrite Hv. clear Hv.
  set (d2 := match parsed with Some v => set_vitals v d1 | None => d1 end).
  assert (Hl : labReport (doc_files d2) = labReport (doc_files d)).
  { subst d2 d1. destruct parsed as [v|]; unfold set_vitals;
      repeat case_match; reflexivity. }
  assert (Hr : prescription (doc_files d2) = prescription (doc_files d)).
  { subst d2 d1. destruct parsed as [v|]; unfold set_vitals;
      repeat case_match; reflexivity. }
  clearbody d2. clear d1.
  destruct (files_labReport (req_files req)) as [f|],
    (files_prescription (req_files req)) as [g|];
    unfold bind, ret; rewrite ?deleteFileIfExists_run; simpl;
    rewrite ?deleteFileIfExists_run; simpl; rewrite ?Hl, ?Hr;
    match goal with
    | |- context [save ?x ?y] => destruct (save x y) as [[[e|u] w3] e3]
    end; simpl; rewrite ?app_nil_r, <- ?app_assoc; reflexivity.
Qed.

Lemma parses_or_bad (b : Body) :
  (∃ text, vitalsText b = Some text ∧ JSON_parse text = None)
  ∨ (∃ parsed evp, parses JSON_parse b parsed evp).
Proof.
  destruct (vitalsText b) as [text|] eqn:Ht.
  - destruct (JSON_parse text) as [v|] eqn:Hv.
    + right. exists (Some v), [JsonParsed text]. by econstructor.
    + left. by exists text.
  - right. exists None, []. by constructor.
Qed.

(** *** The handlers as decision trees *)

Lemma updateRecord_run req w :
  updateRecord JSON_parse isObjectId req w
  = if isObjectId (req_params_id req) then
      if dbFails w then
        (inr UpdateFailed, afterDbCall w, [Logged "updateRecord error:"])
      else
        match records w !! req_params_id req with
        | None => (inr NotFoundError, afterDbCall w, [])
        | Some r =>
            if String.eqb (user r) (req_user_id req) then
              match applyUpdate JSON_parse req (hydrate r) (afterDbCall w) with
              | (inr res, w', evs) =>
                  (inr res, w', OwnerChecked (_id r) true :: evs)
              | (inl e, w', evs) =>
                  (inr UpdateFailed, w',
                   OwnerChecked (_id r) true
                     :: evs ++ [Logged "updateRecord error:"])
              end
            else
              (inr UnauthorizedError, afterDbCall w,
               [OwnerChecked (_id r) false])
        end
    else (inr UpdateFailed, w, [Logged "updateRecord error:"]).
Proof.
  unfold updateRecord, tryCatch, bind at 1. rewrite findById_run.
  destruct (isObjectId (req_params_id req)); [| done].
  destruct (dbFails w); [done |].
  destruct (records w !! req_params_id req) as [r|]; [| done].
  unfold bind, emit. simpl.
  destruct (String.eqb (user r) (req_user_id req)); [| done]. simpl.
  by destruct (applyUpdate _ _ _ _) as [[[e|res] w'] evs].
Qed.

Lemma deleteRecord_run req w :
  deleteRecord isObjectId req w
  = if isObjectId (req_params_id req) then
      if dbFails w then
        (inr (mkResponse 500 (Message "Delete record failed")),
         afterDbCall w, [Logged "deleteRecord error:"])
      else
        match records w !! req_params_id req with
        | None => (inr NotFoundError, afterDbCall w, [])
        | Some r =>
            if String.eqb (user r) (req_user_id req) then
              let w1 := afterDbCall w in
              let u1 := unlinkResult (labReport (files r)) w1 in
              let w2 := with_disk u1.1 w1 in
              let u2 := unlinkResult (prescription (files r)) w2 in
              let w3 := with_disk u2.1 w2 in
              if dbFails w3 then
                (inr (mkResponse 500 (Message "Delete record failed")),
                 afterDbCall w3,
                 OwnerChecked (_id r) true
                   :: (u1.2 ++ u2.2) ++ [Logged "deleteRecord error:"])
              else
                (inr Deleted,
                 with_records (delete (_id r) (records w)) (afterDbCall w3),
                 OwnerChecked (_id r) true
                   :: u1.2 ++ u2.2 ++ [RecordDeleted (_id r)])
            else
              (inr UnauthorizedError, afterDbCall w,
               [OwnerChecked (_id r) false])
        end
    else (inr (mkResponse 500 (Message "Delete record failed")), w,
          [Logged "deleteRecord error:"]).
Proof.
  unfold deleteRecord, tryCatch, bind at 1. rewrite findById_run.
  destruct (isObjectId (req_params_id req)); [| done].
  destruct (dbFails w); [done |].
  destruct (records w !! req_params_id req) as [r|]; [| done].
  unfold bind, emit. simpl.
  destruct (String.eqb (user r) (req_user_id req)); [| done]. simpl.
  rewrite !deleteFileIfExists_run. simpl.
  unfold deleteOne, bind. rewrite dbCall_run.
  destruct (dbFails _); simpl; rewrite ?app_nil_r, <- ?app_assoc; done.
Qed.

Lemma route_put_run req w :
  route_put JSON_parse isObjectId req w
  = match updateRecord JSON_parse isObjectId req
            (with_disk (uploadedPaths req ∪ disk w) w) with
    | (inr res, w', evs) => (res, w', uploadEvents req ++ evs)
    | (inl e, w', evs) =>
        (mkResponse 500 (Message "Server error"), w',
         uploadEvents req ++ evs)
    end.
Proof.
  unfold route_put, serve, bind. rewrite upload_fields_run.
  by destruct (updateRecord _ _ _ _) as [[[e|res] w'] evs].
Qed.

Lemma finds_lookup w id r :
  finds isObjectId w id r ->
  isObjectId id = true ∧ dbFails w = false ∧ records w !! id = Some r
  ∧ _id r = id.
Proof. intros (H1 & H2 & H3 & H4). by rewrite dbFails_head. Qed.


(** *** Creation *)

Lemma createRecord_bad oid req w text :
  vitalsText (req_body req) = Some text ->
  JSON_parse text = None ->
  createRecord JSON_parse oid req w
  = (inr CreateFailed, w, [JsonParsed text; Logged "createRecord error:"]).
Proof.
  unfold vitalsText, createRecord. intros Ht Hp.
  destruct (body_vitals (req_body req)) as [t|]; [| done].
  destruct (truthy t); [| done]. injection Ht as ->.
  unfold tryCatch, bind, JSON_parse_call, emit, throw. simpl.
  by rewrite Hp.
Qed.

Lemma createRecord_good oid req w parsed evp :
  parses JSON_parse (req_body req) parsed evp ->
  createRecord JSON_parse oid req w
  = match save (createdDocument parsed oid req) w with
    | (inr u, w', e) => (inr (mkResponse 201 (RecordJson u)), w', evp ++ e)
    | (inl _, w', e) =>
        (inr CreateFailed, w', evp ++ e ++ [Logged "createRecord error:"])
    end.
Proof.
  intros Hp. unfold createRecord, createdDocument.
  assert (Hv :
    (match body_vitals (req_body req) with
     | Some text =>
         if truthy text then JSON_parse_call JSON_parse text
         else ret (JObject [])
     | None => ret (JObject [])
     end) w
    = (inr (default (JObject []) parsed), w, evp)).
  { destruct Hp as [Hn | text v Ht Hv]; unfold vitalsText in *;
      destruct (body_vitals (req_body req)) as [t|]; try done;
      destruct (truthy t); try done.
    injection Ht as ->.
    unfold bind, JSON_parse_call, emit, ret. simpl. by rewrite Hv. }
  unfold tryCatch, bind at 1. rewrite Hv. unfold bind, ret.
  destruct (save _ w) as [[[e|u] w1] e1]; simpl;
    rewrite ?app_nil_r, <- ?app_assoc; done.
Qed.

Lemma route_post_run oid req w :
  route_post JSON_parse oid req w
  = match createRecord JSON_parse oid req
            (with_disk (uploadedPaths req ∪ disk w) w) with
    | (inr res, w', evs) => (res, w', uploadEvents req ++ evs)
    | (inl e, w', evs) =>
        (mkResponse 500 (Message "Server error"), w',
         uploadEvents req ++ evs)
    end.
Proof.
  unfold route_post, serve, bind. rewrite upload_fields_run.
  by destruct (createRecord _ _ _ _) as [[[e|res] w'] evs].
Qed.

Lemma post_cases oid req w res w' evs :
  route_post JSON_parse oid req w = (res, w', evs) ->
  disk w' = uploadedPaths req ∪ disk w
  ∧ ((∃ text,
        vitalsText (req_body req) = Some text ∧ JSON_parse text = None
        ∧ res = CreateFailed ∧ records w' = records w
        ∧ evs = uploadEvents req
                ++ [JsonParsed text; Logged "createRecord error:"])
     ∨ (∃ parsed evp,
          parses JSON_parse (req_body req) parsed evp
          ∧ ((res = CreateFailed ∧ records w' = records w
              ∧ evs = uploadEvents req
                      ++ evp ++ [Logged "createRecord error:"])
             ∨ (∃ r',
                  validate (createdDocument parsed oid req) = Some r'
                  ∧ dbFails w = false ∧ records w !! oid = None
                  ∧ res = mkResponse 201 (RecordJson r')
                  ∧ records w' = <[oid := r']> (records w)
                  ∧ evs = uploadEvents req ++ evp ++ [RecordInserted oid])))).
Proof.
  rewrite route_post_run.
  destruct (parses_or_bad (req_body req))
    as [(text & Ht & Hp) | (parsed & evp & Hp)].
  - rewrite (createRecord_bad _ _ _ text Ht Hp). intros [= <- <- <-].
    split; [done |]. left. by exists text.
  - rewrite (createRecord_good _ _ _ _ _ Hp), save_run.
    change (dbFails (with_disk _ w)) with (dbFails w).
    change (records (with_disk _ w)) with (records w).
    rewrite createdDocument_isNew.
    destruct (validate _) as [r'|] eqn:Hv.
    + pose proof (validate_created _ _ _ _ Hv) as (Hid & _).
      rewrite Hid.
      destruct (dbFails w); [| destruct (records w !! oid) eqn:Hl];
        intros [= <- <- <-]; (split; [done |]); right; exists parsed, evp;
        (split; [done |]); [by left | by left |].
      right. by exists r'.
    + intros [= <- <- <-]. split; [done |]. right. exists parsed, evp.
      split; [done |]. by left.
Qed.

(** *** An update by the owner of the record *)

Lemma put_owner_cases req w r res w' evs :
  finds isObjectId w (req_params_id req) r ->
  user r = req_user_id req ->
  route_put JSON_parse isObjectId req w = (res, w', evs) ->
  let w0 := afterDbCall (with_disk (uploadedPaths req ∪ disk w) w) in
  (∃ text,
      vitalsText (req_body req) = Some text ∧ JSON_parse text = None
      ∧ res = UpdateFailed ∧ w' = w0
      ∧ evs = uploadEvents req
              ++ [OwnerChecked (_id r) true; JsonParsed text;
                  Logged "updateRecord error:"])
  ∨ (∃ parsed evp,
      parses JSON_parse (req_body req) parsed evp
      ∧ let s1 := slotUnlink (files_labReport (req_files req))
                    (labReport (files r)) w0 in
        let s2 := slotUnlink (files_prescription (req_files req))
                    (prescription (files r)) s1.1 in
        let d := updatedDocument parsed req (hydrate r) in
        disk w' = disk s2.1
        ∧ ((res = UpdateFailed ∧ records w' = records w
            ∧ (validate d = None ∨ dbFails w0 = true)
            ∧ evs = uploadEvents req
                    ++ OwnerChecked (_id r) true
                       :: (evp ++ s1.2 ++ s2.2)
                       ++ [Logged "updateRecord error:"])
           ∨ (∃ r',
               validate d = Some r' ∧ dbFails w0 = false
               ∧ res = mkResponse 200 (RecordJson r')
               ∧ records w' = <[_id r := r']> (records w)
               ∧ evs = uploadEvents req
                       ++ OwnerChecked (_id r) true
                          :: evp ++ s1.2 ++ s2.2 ++ [RecordSaved (_id r)]))).
Proof.
  intros Hf Hu. apply finds_lookup in Hf as (Hid & Hdb & Hr & Hrid).
  rewrite route_put_run, updateRecord_run, Hid.
  change (dbFails (with_disk _ w)) with (dbFails w).
  change (records (with_disk _ w)) with (records w).
  rewrite Hdb, Hr. apply String.eqb_eq in Hu. rewrite Hu.
  intros Hrun w0. fold w0 in Hrun.
  destruct (parses_or_bad (req_body req)) as [(text & Ht & Hp) | (parsed & evp & Hp)].
  - left. exists text. rewrite (applyUpdate_bad _ _ _ text Ht Hp) in Hrun.
    by injection Hrun as <- <- <-.
  - right. exists parsed, evp. split; [done |].
    rewrite (applyUpdate_good _ _ _ _ _ Hp) in Hrun.
    change (doc_files (hydrate r)) with (files r) in Hrun.
    cbv zeta in *.
    set (s1 := slotUnlink (files_labReport (req_files req))
                 (labReport (files r)) w0) in *.
    set (s2 := slotUnlink (files_prescription (req_files req))
                 (prescription (files r)) s1.1) in *.
    assert (Hrec : records s2.1 = records w).
    { subst s2. rewrite (proj1 (slotUnlink_frame _ _ _)).
      subst s1. by rewrite (proj1 (slotUnlink_frame _ _ _)). }
    assert (Hfl : dbFails s2.1 = dbFails w0).
    { unfold dbFails. subst s2.
      rewrite (proj2 (proj2 (proj2 (slotUnlink_frame _ _ _)))).
      subst s1. by rewrite (proj2 (proj2 (proj2 (slotUnlink_frame _ _ _)))). }
    rewrite save_run in Hrun.
    destruct (validate (updatedDocument parsed req (hydrate r))) as [r'|] eqn:Hv.
    + pose proof (validate_updated _ _ _ _ Hv) as (Hid' & _).
      rewrite Hfl, Hrec, Hid', Hrid, Hr in Hrun. simpl in Hrun.
      destruct (dbFails w0).
      * injection Hrun as <- <- <-. split; [done |]. left.
        rewrite app_nil_r, Hrid.
        split_and!; [done | exact Hrec | by right | done].
      * rewrite updatedDocument_isNew in Hrun. simpl in Hrun.
        injection Hrun as <- <- <-. split; [done |]. right.
        exists r'. rewrite Hrid. split_and!; done.
    + injection Hrun as <- <- <-. split; [done |]. left.
      rewrite app_nil_r, ?Hrid.
      split_and!; [done | exact Hrec | by left | done].
Qed.

(** C1. An update or delete request on an existing record of another
    user is answered with UnauthorizedError (status 401), which is not
    the NotFoundError response, and leaves the stored records as they
    were. *)
Theorem C1_foreign_record_is_unauthorized req w r :
  finds isObjectId w (req_params_id req) r ->
  user r ≠ req_user_id req ->
  (∃ w' evs,
      route_put JSON_parse isObjectId req w = (UnauthorizedError, w', evs)
      ∧ records w' = records w)
  ∧ (∃ w' evs,
      route_delete isObjectId req w = (UnauthorizedError, w', evs)
      ∧ records w' = records w)
  ∧ UnauthorizedError ≠ NotFoundError.
Proof.
  intros Hf Hu. apply finds_lookup in Hf as (Hid & Hdb & Hr & _).
  apply String.eqb_neq in Hu.
  split; [| split; [| done]].
  - rewrite route_put_run, updateRecord_run, Hid.
    change (dbFails (with_disk _ w)) with (dbFails w).
    change (records (with_disk _ w)) with (records w).
    rewrite Hdb, Hr, Hu. by eexists _, _.
  - unfold route_delete, serve. rewrite deleteRecord_run, Hid, Hdb, Hr, Hu.
    by eexists _, _.
Qed.

(** C2 (as amended).  In an update by the owner, each of title,
    medicalHistory and doctorNotes of the stored record is the value of
    the request when the field is present and the old value when it is
    absent, whenever the update succeeds; an update that does not
    succeed stores nothing.  An update with an empty title never
    succeeds: the required title is refused when the document is saved.
    An update whose title is not the empty string, without vitals and
    with a working database, succeeds, so an empty medicalHistory or
    doctorNotes is stored as the empty string. *)
Theorem C2_partial_update req w r res w' evs :
  finds isObjectId w (req_params_id req) r ->
  user r = req_user_id req ->
  route_put JSON_parse isObjectId req w = (res, w', evs) ->
  (status res = 200 ->
     ∃ r', records w' !! req_params_id req = Some r'
       ∧ title r' = default (title r) (body_title (req_body req))
       ∧ medicalHistory r'
         = default (medicalHistory r) (body_medicalHistory (req_body req))
       ∧ doctorNotes r'
         = default (doctorNotes r) (body_doctorNotes (req_body req)))
  ∧ (status res ≠ 200 -> records w' = records w)
  ∧ (body_title (req_body req) = Some "" ->
       res = UpdateFailed ∧ records w' = records w)
  ∧ (body_title (req_body req) ≠ Some "" -> title r ≠ "" ->
       vitalsText (req_body req) = None -> dbFaults w = [] ->
       status res = 200).
Proof.
  intros Hf Hu Hrun.
  pose proof (proj2 (proj2 (proj2 Hf))) as Hrid.
  destruct (put_owner_cases _ _ _ _ _ _ Hf Hu Hrun)
    as [(text & Ht & Hp & -> & -> & _) | (parsed & evp & Hp & Hcase)].
  - split_and!; try done.
    intros _ _ Hn. congruence.
  - cbv zeta in Hcase.
    destruct Hcase as (_ & [(-> & Hrec & Hwhy & _) | (r' & Hv & Hdb & -> & Hrec & _)]).
    + split_and!; try done.
      intros Ht Hr Hn Hfs. exfalso.
      destruct Hwhy as [Hv | Hdb].
      * destruct Hp as [_ | text v Htext _]; [| congruence].
        destruct (validate_updated_plain req r) as [r' Hr']; [| congruence].
        destruct (body_title (req_body req)) as [t|]; simpl.
        -- destruct (truthy t) eqn:E; [done |].
           apply truthy_empty in E. congruence.
        -- destruct (truthy (title r)) eqn:E; [done |].
           by apply truthy_empty in E.
      * change (dbFails (afterDbCall w) = true) in Hdb.
        by rewrite dbFails_after_nil in Hdb.
    + pose proof (validate_updated _ _ _ _ Hv)
        as (_ & _ & Ht & Htr & Hmh & Hdn & _).
      split_and!; try done.
      * intros _. exists r'. rewrite Hrec, Hrid, lookup_insert_eq. done.
      * intros Hempty. rewrite Hempty in Ht. simpl in Ht.
        rewrite Ht in Htr. done.
Qed.

(** C3.  In a successful update whose vitals field reaches the parser
    and parses to [v], the stored vitals are the cast of [v] alone: they
    do not depend on the vitals stored before, and every vitals field
    without a member in a supplied object is absent afterwards. *)
Theorem C3_vitals_replaced_wholesale req w r res w' evs text v :
  finds isObjectId w (req_params_id req) r ->
  user r = req_user_id req ->
  vitalsText (req_body req) = Some text ->
  JSON_parse text = Some v ->
  route_put JSON_parse isObjectId req w = (res, w', evs) ->
  status res = 200 ->
  ∃ r', records w' !! req_params_id req = Some r'
    ∧ castVitals v = Some (vitals r')
    ∧ ∀ ms, v = JObject ms ->
        ∃ vt, vitals r' = Some vt
          ∧ (member "bloodPressure" ms = None -> bloodPressure vt = None)
          ∧ (member "heartRate" ms = None -> heartRate vt = None)
          ∧ (member "bloodSugar" ms = None -> bloodSugar vt = None)
          ∧ (member "weight" ms = None -> weight vt = None)
          ∧ (member "height" ms = None -> height vt = None).
Proof.
  intros Hf Hu Ht Hv Hrun Hok.
  pose proof (proj2 (proj2 (proj2 Hf))) as Hrid.
  destruct (put_owner_cases _ _ _ _ _ _ Hf Hu Hrun)
    as [(text' & Ht' & Hp & -> & _) | (parsed & evp & Hp & Hcase)];
    [done |].
  cbv zeta in Hcase.
  destruct Hcase as (_ & [(-> & _) | (r' & Hval & _ & _ & Hrec & _)]);
    [done |].
  destruct Hp as [Hn | text' v' Ht' Hv']; [congruence |].
  assert (text' = text) as -> by congruence.
  assert (v' = v) as -> by congruence.
  pose proof (validate_updated _ _ _ _ Hval) as (_ & _ & _ & _ & _ & _ & Hc & _).
  simpl in Hc.
  exists r'. rewrite Hrec, Hrid, lookup_insert_eq. split_and!; try done.
  intros ms ->. simpl in Hc. unfold castField in Hc.
  destruct (vitals r') as [vt|].
  - exists vt. split; [done |].
    repeat case_match; try discriminate;
      injection Hc as <-; simpl; split_and!; intros; congruence.
  - repeat case_match; discriminate.
Qed.

(** C4 (as amended).  In every run of update or delete, each attempt
    to remove a file comes after an ownership check that passed, so a
    caller who is not the owner of the record causes no file removal:
    the delete request changes nothing on disk.  The files uploaded with
    an update request are written by the upload middleware first, before
    the handler and its ownership check, for the owner and for anyone
    else: after an update request of a caller who is not the owner the
    disk holds the uploaded files besides what it held. *)
Theorem C4_ownership_check_precedes_removal req w :
  (∀ res w' evs,
      route_put JSON_parse isObjectId req w = (res, w', evs) ->
      (∃ rest, evs = uploadEvents req ++ rest)
      ∧ (∀ i e p, evs !! i = Some e -> unlinkAttempt p e ->
           ∃ j rid, j < i ∧ evs !! j = Some (OwnerChecked rid true))
      ∧ (∀ r, finds isObjectId w (req_params_id req) r ->
           user r ≠ req_user_id req ->
           evs = uploadEvents req ++ [OwnerChecked (req_params_id req) false]
           ∧ disk w' = uploadedPaths req ∪ disk w))
  ∧ (∀ res w' evs,
      route_delete isObjectId req w = (res, w', evs) ->
      (∀ i e p, evs !! i = Some e -> unlinkAttempt p e ->
         ∃ j rid, j < i ∧ evs !! j = Some (OwnerChecked rid true))
      ∧ (∀ r, finds isObjectId w (req_params_id req) r ->
           user r ≠ req_user_id req ->
           evs = [OwnerChecked (req_params_id req) false]
           ∧ disk w' = disk w)).
Proof.
  split; intros res w' evs Hrun.
  - rewrite route_put_run, updateRecord_run in Hrun.
    change (dbFails (with_disk _ w)) with (dbFails w) in Hrun.
    change (records (with_disk _ w)) with (records w) in Hrun.
    split_and!.
    + repeat case_match; simplify_eq; eauto.
    + intros i e p Hi He.
      repeat case_match; simplify_eq;
        first
          [ by eapply attempt_after_check;
              [ intros e' Hin; apply uploadEvents_written in Hin as (q & ->);
                by intros [|]
              | done | done ]
          | eapply no_attempt_vacuous; [| done | done];
            intros e' Hin; eapply uploads_then_plain; [| exact Hin];
            no_attempt_in_list ].
    + intros r Hf Hu. apply finds_lookup in Hf as (Hid & Hdb & Hr & Hrid).
      apply String.eqb_neq in Hu.
      rewrite Hid, Hdb, Hr, Hu in Hrun. simplify_eq.
      by rewrite Hrid.
  - unfold route_delete, serve in Hrun. rewrite deleteRecord_run in Hrun.
    split.
    + intros i e p Hi He. cbv zeta in Hrun.
      repeat case_match; simplify_eq;
        first
          [ by eapply (attempt_after_check []);
              [ no_attempt_in_list | done | done ]
          | eapply no_attempt_vacuous; [| done | done];
            no_attempt_in_list ].
    + intros r Hf Hu. apply finds_lookup in Hf as (Hid & Hdb & Hr & Hrid).
      apply String.eqb_neq in Hu.
      rewrite Hid, Hdb, Hr, Hu in Hrun. simplify_eq.
      by rewrite Hrid.
Qed.

(** C6.  A delete request by the owner of an existing record, with a
    working database, is answered with success whether or not the files
    can be removed.  For each attachment of the record that is on disk, a
    removal is attempted before the record is deleted, and the file is
    gone afterwards unless it cannot be removed.  Afterwards [findById]
    finds nothing under the id, and the same request again is answered
    with NotFoundError. *)
Theorem C6_owner_delete req w r :
  finds isObjectId w (req_params_id req) r ->
  user r = req_user_id req ->
  dbFaults w = [] ->
  ∃ w' pre,
    route_delete isObjectId req w
    = (Deleted, w', pre ++ [RecordDeleted (req_params_id req)])
    ∧ (∀ p, p = labReport (files r) ∨ p = prescription (files r) ->
         truthy p = true -> p ∈ disk w ->
         (∃ e, e ∈ pre ∧ unlinkAttempt p e)
         ∧ (p ∉ disk w' ∨ p ∈ undeletable w))
    ∧ records w' = delete (req_params_id req) (records w)
    ∧ (Record_findById isObjectId (req_params_id req) w').1.1 = inr None
    ∧ (route_delete isObjectId req w').1.1 = NotFoundError.
Proof.
  intros Hf Hu Hfs. apply finds_lookup in Hf as (Hid & Hdb & Hr & Hrid).
  apply String.eqb_eq in Hu.
  unfold route_delete, serve. rewrite deleteRecord_run, Hid, Hdb, Hr, Hu.
  cbv zeta. rewrite (afterDbCall_nil w Hfs).
  set (u1 := unlinkResult (labReport (files r)) w).
  set (w2 := with_disk u1.1 w).
  set (u2 := unlinkResult (prescription (files r)) w2).
  set (w3 := with_disk u2.1 w2).
  assert (Hfs3 : dbFaults w3 = []) by done.
  rewrite (dbFails_nil w3 Hfs3), (afterDbCall_nil w3 Hfs3), Hrid.
  eexists _, (OwnerChecked (req_params_id req) true :: u1.2 ++ u2.2).
  split; [by rewrite <- app_comm_cons, <- app_assoc |].
  split_and!.
  - intros p Hp Ht Hd.
    assert (Hin2 : ∀ q, q ∈ u2.1 -> q ∈ u1.1
              ∧ (q = prescription (files r) -> truthy q = true ->
                 q ∈ undeletable w)).
    { intros q Hq. subst u2. apply unlinkResult_disk in Hq as [Hq1 Hq2].
      split; [done |]. intros ->. by apply Hq2. }
    assert (Hin1 : ∀ q, q ∈ u1.1 -> q ∈ disk w
              ∧ (q = labReport (files r) -> truthy q = true ->
                 q ∈ undeletable w)).
    { intros q Hq. subst u1. apply unlinkResult_disk in Hq as [Hq1 Hq2].
      split; [done |]. intros ->. by apply Hq2. }
    split.
    + destruct Hp as [-> | ->].
      * destruct (unlinkResult_attempt _ w Ht Hd) as (e & He & Hat).
        exists e. split; [| done]. set_solver.
      * destruct (decide (prescription (files r) ∈ u1.1)) as [Hk | Hgone].
        -- destruct (unlinkResult_attempt _ w2 Ht Hk) as (e & He & Hat).
           exists e. split; [| done]. set_solver.
        -- assert (prescription (files r) = labReport (files r)) as Heq.
           { destruct (decide (prescription (files r) = labReport (files r)))
               as [|Hne]; [done |].
             exfalso. apply Hgone. subst u1. apply unlinkResult_disk.
             split; [done |]. by intros. }
           rewrite Heq in Ht, Hd.
           destruct (unlinkResult_attempt _ w Ht Hd) as (e & He & Hat).
           exists e. rewrite Heq. split; [| done]. set_solver.
    + simpl. destruct (decide (p ∈ u2.1)) as [Hk | Hgone]; [| by left].
      right. apply Hin2 in Hk as [Hk1 Hk2].
      apply Hin1 in Hk1 as [_ Hk1].
      destruct Hp as [-> | ->]; eauto.
  - simpl. done.
  - rewrite findById_run, Hid. simpl.
    change (dbFails _) with (dbFails w3).
    rewrite (dbFails_nil w3 Hfs3). simpl. by rewrite lookup_delete_eq.
  - rewrite deleteRecord_run, Hid.
    change (dbFails (with_records _ w3)) with (dbFails w3).
    rewrite (dbFails_nil w3 Hfs3). simpl. by rewrite lookup_delete_eq.
Qed.

(** X18.  In an update by the owner, a slot of [files] for which the
    request carries no new file keeps its reference, whatever the outcome.
    When the update succeeds and carries a new file for a slot, the slot
    holds the reference of the new file and nothing else; if the file
    referenced before was on disk, its removal was attempted before the
    record was saved, and it is gone unless it cannot be removed; the new
    file is on disk when its path differs from the references replaced. *)
Theorem X18_successful_update_replaces_the_attachment req w r res w' evs :
  finds isObjectId w (req_params_id req) r ->
  user r = req_user_id req ->
  route_put JSON_parse isObjectId req w = (res, w', evs) ->
  (∀ r', records w' !! req_params_id req = Some r' ->
     (files_labReport (req_files req) = None ->
      labReport (files r') = labReport (files r))
     ∧ (files_prescription (req_files req) = None ->
        prescription (files r') = prescription (files r)))
  ∧ (status res = 200 ->
     ∃ r' pre,
       records w' !! req_params_id req = Some r'
       ∧ evs = pre ++ [RecordSaved (req_params_id req)]
       ∧ (∀ f, files_labReport (req_files req) = Some f ->
            let old := labReport (files r) in
            let new := buildPublicPath "records" (filename f) in
            labReport (files r') = new
            ∧ (truthy old = true -> old ∈ disk w ->
               (∃ e, e ∈ pre ∧ unlinkAttempt old e)
               ∧ (old ∉ disk w' ∨ old ∈ undeletable w))
            ∧ (new ≠ old -> new ≠ prescription (files r) ->
               fullPathOf new ∈ disk w'))
       ∧ (∀ f, files_prescription (req_files req) = Some f ->
            let old := prescription (files r) in
            let new := buildPublicPath "records" (filename f) in
            prescription (files r') = new
            ∧ (truthy old = true -> old ∈ disk w ->
               (∃ e, e ∈ pre ∧ unlinkAttempt old e)
               ∧ (old ∉ disk w' ∨ old ∈ undeletable w))
            ∧ (new ≠ old -> new ≠ labReport (files r) ->
               fullPathOf new ∈ disk w'))).
Proof.
  intros Hf Hu Hrun.
  pose proof (finds_lookup _ _ _ Hf) as (_ & _ & Hr & Hrid).
  destruct (put_owner_cases _ _ _ _ _ _ Hf Hu Hrun)
    as [(text & _ & _ & -> & -> & _) | (parsed & evp & Hp & Hcase)].
  { split; [| done]. intros r' Hr'.
    change (records w !! req_params_id req = Some r') in Hr'.
    by simplify_eq. }
  cbv zeta in Hcase.
  set (w0 := afterDbCall (with_disk (uploadedPaths req ∪ disk w) w)) in *.
  set (s1 := slotUnlink (files_labReport (req_files req))
               (labReport (files r)) w0) in *.
  set (s2 := slotUnlink (files_prescription (req_files req))
               (prescription (files r)) s1.1) in *.
  destruct Hcase as (Hdisk & [(-> & Hrec & _) | (r' & Hval & _ & -> & Hrec & ->)]).
  { split; [| done]. intros r' Hr'. rewrite Hrec in Hr'. by simplify_eq. }
  pose proof (validate_updated _ _ _ _ Hval)
    as (_ & _ & _ & _ & _ & _ & _ & Hlab & Hrx).
  assert (Hund1 : undeletable s1.1 = undeletable w).
  { subst s1. by rewrite (proj1 (proj2 (proj2 (slotUnlink_frame _ _ _)))). }
  assert (Hw0 : ∀ q, q ∈ disk w0 ↔ q ∈ uploadedPaths req ∨ q ∈ disk w).
  { intros q. subst w0. simpl. set_solver. }
  split.
  { intros r'' Hr''. rewrite Hrec, Hrid, lookup_insert_eq in Hr''.
    simplify_eq. split; intros Hn; [rewrite Hn in Hlab | rewrite Hn in Hrx];
      done. }
  intros _. exists r'.
  exists (uploadEvents req ++ OwnerChecked (_id r) true :: evp ++ s1.2 ++ s2.2).
  split; [by rewrite Hrec, Hrid, lookup_insert_eq |].
  split.
  { rewrite Hrid, <- !app_assoc, <- app_comm_cons. do 2 f_equal.
    by rewrite <- !app_assoc. }
  split.
  - intros f Hfile old new. rewrite Hfile in Hlab.
    split; [done |]. split.
    + intros Ht Hd.
      assert (Hd0 : old ∈ disk w0) by (apply Hw0; by right).
      split.
      * subst s1. rewrite Hfile.
        destruct (slotUnlink_attempt f old w0 Ht Hd0) as (e & He & Hat).
        exists e. split; [| done]. set_solver.
      * destruct (decide (old ∈ disk w')) as [Hk | Hgone]; [| by left].
        right. rewrite Hdisk in Hk. subst s2.
        apply slotUnlink_disk in Hk as [Hk _]. subst s1.
        apply slotUnlink_disk in Hk as [_ Hk].
        apply Hk; [by rewrite Hfile | done | done].
    + intros Hne1 Hne2. rewrite Hdisk. subst s2.
      apply slotUnlink_disk. split; [| by intros _ ?].
      subst s1. apply slotUnlink_disk. split; [| by intros _ ?].
      apply Hw0. left. unfold uploadedPaths, uploadTargets.
      rewrite Hfile. set_solver.
  - intros g Hfile old new. rewrite Hfile in Hrx.
    split; [done |]. split.
    + intros Ht Hd.
      assert (Hd0 : old ∈ disk w0) by (apply Hw0; by right).
      split.
      * destruct (decide (old ∈ disk s1.1)) as [Hk | Hgone].
        -- subst s2. rewrite Hfile.
           destruct (slotUnlink_attempt g old s1.1 Ht Hk) as (e & He & Hat).
           exists e. split; [| done]. set_solver.
        -- destruct (files_labReport (req_files req)) as [f|] eqn:Hlf;
             [| by subst s1].
           assert (old = labReport (files r)) as Heq.
           { destruct (decide (old = labReport (files r))) as [|Hne];
               [done |].
             exfalso. apply Hgone. subst s1. apply slotUnlink_disk.
             split; [done |]. by intros _ ?. }
           destruct (slotUnlink_attempt f old w0 Ht Hd0) as (e & He & Hat).
           exists e. split; [| done]. subst s1. rewrite <- Heq. set_solver.
      * destruct (decide (old ∈ disk w')) as [Hk | Hgone]; [| by left].
        right. rewrite Hdisk in Hk. subst s2.
        apply slotUnlink_disk in Hk as [_ Hk]. rewrite <- Hund1.
        apply Hk; [by rewrite Hfile | done | done].
    + intros Hne1 Hne2. rewrite Hdisk. subst s2.
      apply slotUnlink_disk. split; [| by intros _ ?].
      subst s1. apply slotUnlink_disk. split; [| by intros _ ?].
      apply Hw0. left. unfold uploadedPaths, uploadTargets.
      rewrite Hfile. set_solver.
Qed.

(** C5 (as amended).  A create request without a title or with an
    empty one, with vitals text that does not parse, or met by a failing
    database or a taken _id, is answered in each case with the one
    response of the handler's catch clause, status 500 and the message
    "Create record failed", and stores no record. *)
Theorem C5_create_failures_share_one_response oid req w res w' evs :
  route_post JSON_parse oid req w = (res, w', evs) ->
  body_title (req_body req) = None
  ∨ body_title (req_body req) = Some ""
  ∨ (∃ text, vitalsText (req_body req) = Some text ∧ JSON_parse text = None)
  ∨ dbFails w = true
  ∨ is_Some (records w !! oid) ->
  res = CreateFailed ∧ records w' = records w.
Proof.
  intros Hrun Hwhy.
  destruct (post_cases _ _ _ _ _ _ Hrun)
    as (_ & [(text & _ & _ & -> & Hrec & _) | (parsed & evp & Hp & Hcase)]);
    [done |].
  destruct Hcase as [(-> & Hrec & _) | (r' & Hv & Hdb & Hfree & _)];
    [done |].
  exfalso.
  pose proof (validate_created _ _ _ _ Hv) as (_ & _ & Ht & Htr & _).
  destruct Hwhy as [Hn | [He | [(text & Htext & Hbad) | [Hd | [x Hx]]]]];
    try congruence.
  - rewrite Ht in He. injection He as He. by rewrite He in Htr.
  - destruct Hp as [Hn | text' v Htext' Hv']; congruence.
Qed.


End Properties.

Section EmptyVitals.

Variable JSON_parse : string -> option json.
Variable isObjectId : string -> bool.

(** C10.  A vitals field that is present and empty is handled as an
    absent one: create and update answer and leave the world exactly as
    for the request without the field, and the same whatever JSON.parse
    would do, since it is not called.  A successful create stores the
    empty vitals structure, a successful update by the owner leaves the
    stored vitals as they were, and neither run contains a parse. *)
Theorem C10_empty_vitals_is_absent oid req w :
  body_vitals (req_body req) = Some "" ->
  route_post JSON_parse oid req w
  = route_post JSON_parse oid (dropVitals req) w
  ∧ route_put JSON_parse isObjectId req w
    = route_put JSON_parse isObjectId (dropVitals req) w
  ∧ (∀ parse',
       route_post parse' oid req w = route_post JSON_parse oid req w
       ∧ route_put parse' isObjectId req w
         = route_put JSON_parse isObjectId req w)
  ∧ (∀ res w' evs,
       route_post JSON_parse oid req w = (res, w', evs) ->
       (∀ text, JsonParsed text ∉ evs)
       ∧ (status res = 201 ->
          ∃ r', records w' !! oid = Some r' ∧ vitals r' = Some emptyVitals))
  ∧ (∀ r res w' evs,
       finds isObjectId w (req_params_id req) r ->
       user r = req_user_id req ->
       route_put JSON_parse isObjectId req w = (res, w', evs) ->
       (∀ text, JsonParsed text ∉ evs)
       ∧ (status res = 200 ->
          ∃ r', records w' !! req_params_id req = Some r'
            ∧ vitals r' = vitals r)).
Proof.
  intros He.
  assert (Hnone : vitalsText (req_body req) = None).
  { unfold vitalsText. by rewrite He. }
  assert (Hc : ∀ p1 p2 rq w0,
             rq = req ∨ rq = dropVitals req ->
             route_post p1 oid rq w0 = route_post p2 oid req w0).
  { intros p1 p2 rq w0 [-> | ->]; unfold route_post, serve, bind, createRecord;
      simpl; by rewrite He. }
  assert (Ha : ∀ p1 p2 rq d w0,
             rq = req ∨ rq = dropVitals req ->
             applyUpdate p1 rq d w0 = applyUpdate p2 req d w0).
  { intros p1 p2 rq d w0 [-> | ->]; unfold applyUpdate; simpl;
      by rewrite He. }
  assert (Hu : ∀ p1 p2 rq w0,
             rq = req ∨ rq = dropVitals req ->
             updateRecord p1 isObjectId rq w0
             = updateRecord p2 isObjectId req w0).
  { intros p1 p2 rq w0 Hrq.
    rewrite (updateRecord_run p1), (updateRecord_run p2).
    replace (req_params_id rq) with (req_params_id req)
      by (by destruct Hrq as [-> | ->]).
    replace (req_user_id rq) with (req_user_id req)
      by (by destruct Hrq as [-> | ->]).
    destruct (isObjectId _); [| done].
    destruct (dbFails w0); [done |].
    destruct (records w0 !! _) as [r|]; [| done].
    destruct (String.eqb _ _); [| done].
    by rewrite (Ha p1 p2 rq _ _ Hrq). }
  assert (Hput : ∀ p1 p2 rq,
             rq = req ∨ rq = dropVitals req ->
             route_put p1 isObjectId rq w = route_put p2 isObjectId req w).
  { intros p1 p2 rq Hrq. unfold route_put, serve, bind.
    replace (upload_fields rq w) with (upload_fields req w)
      by (by destruct Hrq as [-> | ->]).
    destruct (upload_fields req w) as [[[e|[]] w1] e1]; [done |].
    by rewrite (Hu p1 p2 rq w1 Hrq). }
  split_and!.
  - symmetry. apply Hc. by right.
  - symmetry. apply Hput. by right.
  - intros parse'. split; [apply Hc | apply Hput]; by left.
  - intros res w' evs Hrun.
    destruct (post_cases _ _ _ _ _ _ _ Hrun)
      as (_ & [(text & Ht & _) | (parsed & evp & Hp & Hcase)]);
      [congruence |].
    destruct Hp as [_ | text v Ht _]; [| congruence].
    destruct Hcase as [(-> & _ & ->) | (r' & Hv & _ & _ & -> & Hrec & ->)].
    + split; [| done]. intros text Hin.
      apply elem_of_app in Hin as [Hin | Hin].
      * by apply uploadEvents_written in Hin as (q & ?).
      * set_solver.
    + split.
      * intros text Hin. apply elem_of_app in Hin as [Hin | Hin].
        -- by apply uploadEvents_written in Hin as (q & ?).
        -- set_solver.
      * intros _. exists r'. rewrite Hrec, lookup_insert_eq.
        split; [done |].
        pose proof (validate_created _ _ _ _ Hv)
          as (_ & _ & _ & _ & _ & _ & Hvit & _).
        simpl in Hvit. by injection Hvit as <-.
  - intros r res w' evs Hf Hown Hrun.
    pose proof (finds_lookup _ _ _ _ Hf) as (_ & _ & _ & Hrid).
    destruct (put_owner_cases _ _ _ _ _ _ _ _ Hf Hown Hrun)
      as [(text & Ht & _) | (parsed & evp & Hp & Hcase)]; [congruence |].
    destruct Hp as [_ | text v Ht _]; [| congruence].
    cbv zeta in Hcase.
    assert (Hup : ∀ text, JsonParsed text ∉ uploadEvents req).
    { intros text Hin. by apply uploadEvents_written in Hin as (q & ?). }
    destruct Hcase as (_ & [(-> & _ & _ & ->) | (r' & Hv & _ & -> & Hrec & ->)]).
    + split; [| done]. intros text.
      rewrite !not_elem_of_app, !not_elem_of_cons, !not_elem_of_app,
        not_elem_of_cons.
      split_and!; try done; try apply slotUnlink_no_parse.
      all: apply not_elem_of_nil.
    + split.
      * intros text.
        rewrite !not_elem_of_app, !not_elem_of_cons, !not_elem_of_app,
          not_elem_of_cons.
        split_and!; try done; try apply slotUnlink_no_parse.
        all: apply not_elem_of_nil.
      * intros _. exists r'. rewrite Hrec, Hrid, lookup_insert_eq.
        split; [done |].
        by pose proof (validate_updated _ _ _ _ Hv)
          as (_ & _ & _ & _ & _ & _ & Hvit & _).
Qed.

End EmptyVitals.

(** ** Account deletion *)

Lemma deleteAccount_keeps_disk req w res w' evs :
  route_deleteAccount req w = (res, w', evs) ->
  disk w' = disk w ∧ ∀ e p, e ∈ evs -> ¬ unlinkAttempt p e.
Proof.
  unfold route_deleteAccount, serve, deleteAccount, tryCatch,
    Record_deleteMany, User_findByIdAndDelete, bind, ret.
  rewrite dbCall_run. destruct (dbFails w); simpl.
  - intros [= <- <- <-]. split; [done |]. intros e p Hin. set_solver.
  - rewrite dbCall_run. simpl.
    destruct (dbFails _); simpl; intros [= <- <- <-]; (split; [done |]);
      intros e p Hin [-> | ->]; set_solver.
Qed.

(** C9 (the code at the failing input).  Deleting Alice's account removes
    her record from the collection and answers with success, and makes no
    attempt on the two files of the record: both are still on disk. *)
Theorem C9_cascade_leaves_attachments :
  ∃ w',
    route_deleteAccount Ex.plainDelete Ex.world
    = (mkResponse 200 (Message "Account and records deleted"), w',
       [RecordsDeletedOf Ex.alice; UserDeleted Ex.alice])
    ∧ records w' !! Ex.rid = None
    ∧ (Ex.alice ∉ users w')
    ∧ fullPathOf (labReport (files Ex.checkup)) ∈ disk w'
    ∧ fullPathOf (prescription (files Ex.checkup)) ∈ disk w'.
Proof.
  eexists. split; [reflexivity |]. simpl.
  split_and!.
  - apply map_lookup_filter_None. right. intros r Hr.
    apply lookup_singleton_Some in Hr as [_ <-]. simpl. by intros [].
  - set_solver.
  - set_solver.
  - set_solver.
Qed.


(** ** Worked runs *)

Lemma run_eta {A B C : Type} (x : A * B * C) : x = (x.1.1, x.1.2, x.2).
Proof. by destruct x as [[a b] c]. Qed.

Lemma finds_checkup (w : World) :
  records w = {[ Ex.rid := Ex.checkup ]} -> dbFaults w = [] ->
  finds isHex24 w Ex.rid Ex.checkup.
Proof.
  intros Hr Hf. unfold finds. rewrite Hr, Hf.
  split_and!; [reflexivity | discriminate | apply lookup_singleton_eq
              | reflexivity].
Qed.

(** C1 at Bob's requests on Alice's record. *)
Lemma C1_witness :
  (∃ w' evs,
      route_put parseFlatObject isHex24 Ex.foreignUpload Ex.world
      = (UnauthorizedError, w', evs)
      ∧ records w' = records Ex.world)
  ∧ (∃ w' evs,
      route_delete isHex24 Ex.foreignUpload Ex.world
      = (UnauthorizedError, w', evs)
      ∧ records w' = records Ex.world)
  ∧ UnauthorizedError ≠ NotFoundError.
Proof.
  apply (C1_foreign_record_is_unauthorized parseFlatObject isHex24
           Ex.foreignUpload Ex.world Ex.checkup).
  - by apply finds_checkup.
  - discriminate.
Defined.

(** C2 as stated fails: Alice's update with an empty title is refused and
    the stored title is still "Checkup", not the empty string. *)
Lemma C2_counterexample :
  ∃ w' evs,
    route_put parseFlatObject isHex24 Ex.emptyTitle Ex.world
    = (UpdateFailed, w', evs)
    ∧ body_title (req_body Ex.emptyTitle) = Some ""
    ∧ title <$> records w' !! Ex.rid = Some "Checkup"
    ∧ title <$> records w' !! Ex.rid ≠ Some "".
Proof.
  eexists _, _. split; [reflexivity |]. simpl.
  rewrite lookup_singleton_eq. by split_and!.
Qed.

(** C2 as amended, at an update that clears the medical history. *)
Lemma C2_witness :
  ∃ r',
    status (route_put parseFlatObject isHex24 Ex.clearHistory Ex.world).1.1
    = 200
    ∧ records (route_put parseFlatObject isHex24 Ex.clearHistory Ex.world).1.2
        !! Ex.rid = Some r'
    ∧ medicalHistory Ex.checkup = "asthma"
    ∧ title r' = "Checkup" ∧ medicalHistory r' = "" ∧ doctorNotes r' = "rest".
Proof.
  pose (run := route_put parseFlatObject isHex24 Ex.clearHistory Ex.world).
  destruct (C2_partial_update parseFlatObject isHex24 Ex.clearHistory Ex.world
              Ex.checkup run.1.1 run.1.2 run.2)
    as (Hok & _ & _ & Hsucceeds).
  - by apply finds_checkup.
  - reflexivity.
  - apply run_eta.
  - assert (Hst : status run.1.1 = 200) by (by apply Hsucceeds).
    destruct (Hok Hst) as (r' & Hr' & Ht & Hm & Hd).
    exists r'. by split_and!.
Defined.

(** C3 at the update that supplies a heart rate only: the blood pressure
    stored before is gone. *)
Lemma C3_witness :
  ∃ r' vt,
    records (route_put parseFlatObject isHex24 Ex.heartRateOnly Ex.world).1.2
      !! Ex.rid = Some r'
    ∧ vitals Ex.checkup
      = Some (mkVitals (Some "120/80") (Some "70") None None None)
    ∧ vitals r' = Some vt
    ∧ heartRate vt = Some "75" ∧ bloodPressure vt = None.
Proof.
  pose (run := route_put parseFlatObject isHex24 Ex.heartRateOnly Ex.world).
  destruct (C3_vitals_replaced_wholesale parseFlatObject isHex24
              Ex.heartRateOnly Ex.world Ex.checkup run.1.1 run.1.2 run.2
              (stringify [("heartRate", "75")])
              (JObject [("heartRate", JString "75")]))
    as (r' & Hr' & Hcast & Hfields).
  - by apply finds_checkup.
  - reflexivity.
  - reflexivity.
  - reflexivity.
  - apply run_eta.
  - reflexivity.
  - destruct (Hfields _ eq_refl) as (vt & Hvt & Hbp & _).
    exists r', vt. split_and!; [done | done | done | | by apply Hbp].
    rewrite Hvt in Hcast. simpl in Hcast. by injection Hcast as <-.
Defined.

(** C4 as stated fails: Bob, who does not own the record, sends an update
    with a file; the file is written, and written before the ownership
    check, which then refuses him. *)
Lemma C4_counterexample :
  ∃ w',
    route_put parseFlatObject isHex24 Ex.foreignUpload Ex.world
    = (UnauthorizedError, w',
       [FileWritten Ex.newLabPath; OwnerChecked Ex.rid false])
    ∧ user Ex.checkup ≠ req_user_id Ex.foreignUpload
    ∧ (Ex.newLabPath ∉ disk Ex.world)
    ∧ Ex.newLabPath ∈ disk w'.
Proof.
  eexists. split; [reflexivity |]. simpl.
  split_and!; [discriminate | | set_solver].
  unfold Ex.newLabPath, Ex.oldLab, Ex.oldRx. set_solver.
Qed.

(** C4 as amended, at the same request and at Bob's delete request. *)
Lemma C4_witness :
  (∃ res w',
      route_put parseFlatObject isHex24 Ex.foreignUpload Ex.world
      = (res, w', uploadEvents Ex.foreignUpload ++ [OwnerChecked Ex.rid false])
      ∧ disk w' = uploadedPaths Ex.foreignUpload ∪ disk Ex.world)
  ∧ (∃ res w',
      route_delete isHex24 Ex.foreignDelete Ex.world
      = (res, w', [OwnerChecked Ex.rid false])
      ∧ disk w' = disk Ex.world).
Proof.
  pose (put := route_put parseFlatObject isHex24 Ex.foreignUpload Ex.world).
  pose (del := route_delete isHex24 Ex.foreignDelete Ex.world).
  split.
  - destruct (C4_ownership_check_precedes_removal parseFlatObject isHex24
                Ex.foreignUpload Ex.world) as [Hput _].
    destruct (Hput put.1.1 put.1.2 put.2 (run_eta put)) as (_ & _ & Hforeign).
    destruct (Hforeign Ex.checkup) as [Hevs Hdisk].
    + by apply finds_checkup.
    + discriminate.
    + exists put.1.1, put.1.2. split; [| exact Hdisk].
      transitivity (put.1.1, put.1.2, put.2); [apply run_eta |].
      by rewrite Hevs.
  - destruct (C4_ownership_check_precedes_removal parseFlatObject isHex24
                Ex.foreignDelete Ex.world) as [_ Hdel].
    destruct (Hdel del.1.1 del.1.2 del.2 (run_eta del)) as (_ & Hforeign).
    destruct (Hforeign Ex.checkup) as [Hevs Hdisk].
    + by apply finds_checkup.
    + discriminate.
    + exists del.1.1, del.1.2. split; [| exact Hdisk].
      transitivity (del.1.1, del.1.2, del.2); [apply run_eta |].
      by rewrite Hevs.
Defined.

(** C5 as stated fails: a create without title, a create whose vitals do
    not parse and a valid create met by a failing database get one and the
    same response, so the caller cannot tell a ValidationError from a
    StorageError. *)
Lemma C5_counterexample :
  body_title (req_body Ex.createNoTitle) = None
  ∧ parseFlatObject "{oops" = None
  ∧ dbFails Ex.worldDbDown = true
  ∧ validate (createdDocument None Ex.rid2 Ex.createValid) ≠ None
  ∧ (route_post parseFlatObject Ex.rid2 Ex.createNoTitle Ex.world).1.1
    = CreateFailed
  ∧ (route_post parseFlatObject Ex.rid2 Ex.createBadVitals Ex.world).1.1
    = CreateFailed
  ∧ (route_post parseFlatObject Ex.rid2 Ex.createValid Ex.worldDbDown).1.1
    = CreateFailed
  ∧ (route_post parseFlatObject Ex.rid2 Ex.createNoTitle Ex.world).1.1
    = (route_post parseFlatObject Ex.rid2 Ex.createValid Ex.worldDbDown).1.1.
Proof. by split_and!. Qed.

(** C5 as amended, at the create request without title. *)
Lemma C5_witness :
  ∃ w' evs,
    route_post parseFlatObject Ex.rid2 Ex.createNoTitle Ex.world
    = (CreateFailed, w', evs)
    ∧ records w' = records Ex.world.
Proof.
  pose (run := route_post parseFlatObject Ex.rid2 Ex.createNoTitle Ex.world).
  destruct (C5_create_failures_share_one_response parseFlatObject Ex.rid2
              Ex.createNoTitle Ex.world run.1.1 run.1.2 run.2)
    as [Hres Hrec].
  - apply run_eta.
  - by left.
  - exists run.1.2, run.2. split; [| exact Hrec].
    transitivity (run.1.1, run.1.2, run.2); [apply run_eta |].
    by rewrite Hres.
Defined.

(** C6 at Alice's delete request: both files are removed, then the
    record. *)
Lemma C6_witness :
  ∃ w' pre,
    route_delete isHex24 Ex.plainDelete Ex.world
    = (Deleted, w', pre ++ [RecordDeleted Ex.rid])
    ∧ (∃ e, e ∈ pre ∧ unlinkAttempt Ex.oldLab e)
    ∧ (∃ e, e ∈ pre ∧ unlinkAttempt Ex.oldRx e)
    ∧ (Ex.oldLab ∉ disk w') ∧ (Ex.oldRx ∉ disk w')
    ∧ (Record_findById isHex24 Ex.rid w').1.1 = inr None
    ∧ (route_delete isHex24 Ex.plainDelete w').1.1 = NotFoundError.
Proof.
  destruct (C6_owner_delete isHex24 Ex.plainDelete Ex.world Ex.checkup)
    as (w' & pre & Hrun & Hfiles & _ & Hfind & Hagain).
  - by apply finds_checkup.
  - reflexivity.
  - reflexivity.
  - exists w', pre.
    destruct (Hfiles Ex.oldLab) as [Hat1 [Hgone1 | Hund1]];
      [by left | reflexivity | clear; simpl; set_solver
      | | exfalso; clear -Hund1; by apply elem_of_empty in Hund1].
    destruct (Hfiles Ex.oldRx) as [Hat2 [Hgone2 | Hund2]];
      [by right | reflexivity | clear; simpl; set_solver
      | | exfalso; clear -Hund2; by apply elem_of_empty in Hund2].
    by split_and!.
Defined.



(** X18 at an update that replaces the lab report: the new reference is
    stored, the old file is gone, the prescription is untouched. *)
Lemma X18_witness :
  ∃ r' pre,
    records (route_put parseFlatObject isHex24 Ex.replaceLab Ex.world).1.2
      !! Ex.rid = Some r'
    ∧ (route_put parseFlatObject isHex24 Ex.replaceLab Ex.world).2
      = pre ++ [RecordSaved Ex.rid]
    ∧ labReport (files r') = Ex.newLabPath
    ∧ prescription (files r') = Ex.oldRx
    ∧ (∃ e, e ∈ pre ∧ unlinkAttempt Ex.oldLab e)
    ∧ (Ex.oldLab ∉ disk (route_put parseFlatObject isHex24 Ex.replaceLab
                           Ex.world).1.2)
    ∧ Ex.newLabPath
      ∈ disk (route_put parseFlatObject isHex24 Ex.replaceLab Ex.world).1.2.
Proof.
  pose (run := route_put parseFlatObject isHex24 Ex.replaceLab Ex.world).
  destruct (X18_successful_update_replaces_the_attachment parseFlatObject
              isHex24 Ex.replaceLab Ex.world Ex.checkup run.1.1 run.1.2 run.2)
    as (Hkeep & Hnew).
  - by apply finds_checkup.
  - reflexivity.
  - apply run_eta.
  - destruct Hnew as (r' & pre & Hr' & Hevs & Hlab & _); [reflexivity |].
    destruct (Hlab Ex.newLab eq_refl) as (Href & Hold & Hlive).
    destruct Hold as [Hat [Hgone | Hund]];
      [reflexivity | clear; simpl; set_solver
      | | exfalso; clear -Hund; by apply elem_of_empty in Hund].
    destruct (Hkeep r' Hr') as [_ Hrx].
    exists r', pre.
    split_and!; [done | done | done | by apply Hrx | done | done |].
    apply Hlive; discriminate.
Defined.

(** C10 at a create and an update whose vitals field is the empty
    string. *)
Lemma C10_witness :
  route_post parseFlatObject Ex.rid2 Ex.createEmptyVitals Ex.world
  = route_post parseFlatObject Ex.rid2 (dropVitals Ex.createEmptyVitals)
      Ex.world
  ∧ route_put parseFlatObject isHex24 Ex.emptyVitalsField Ex.world
    = route_put parseFlatObject isHex24 (dropVitals Ex.emptyVitalsField)
        Ex.world
  ∧ (∃ r',
       records (route_post parseFlatObject Ex.rid2 Ex.createEmptyVitals
                  Ex.world).1.2 !! Ex.rid2 = Some r'
       ∧ vitals r' = Some emptyVitals)
  ∧ (∃ r',
       records (route_put parseFlatObject isHex24 Ex.emptyVitalsField
                  Ex.world).1.2 !! Ex.rid = Some r'
       ∧ vitals r' = vitals Ex.checkup).
Proof.
  pose (post := route_post parseFlatObject Ex.rid2 Ex.createEmptyVitals
                  Ex.world).
  pose (put := route_put parseFlatObject isHex24 Ex.emptyVitalsField Ex.world).
  destruct (C10_empty_vitals_is_absent parseFlatObject isHex24 Ex.rid2
              Ex.createEmptyVitals Ex.world eq_refl)
    as (Hpost & _ & _ & Hcreate & _).
  destruct (C10_empty_vitals_is_absent parseFlatObject isHex24 Ex.rid2
              Ex.emptyVitalsField Ex.world eq_refl)
    as (_ & Hput & _ & _ & Hupdate).
  split_and!; [exact Hpost | exact Hput | |].
  - destruct (Hcreate post.1.1 post.1.2 post.2 (run_eta post)) as [_ Hok].
    by apply Hok.
  - destruct (Hupdate Ex.checkup put.1.1 put.1.2 put.2) as [_ Hok].
    + by apply finds_checkup.
    + reflexivity.
    + apply run_eta.
    + by apply Hok.
Defined.

(** * Further properties of the record handlers *)

Lemma truthy_true s : truthy s = true ↔ s ≠ "".
Proof. destruct s; simpl; split; congruence. Qed.

Lemma validate_created_ok parsed oid req t vt :
  body_title (req_body req) = Some t -> t ≠ "" ->
  castVitals (default (JObject []) parsed) = Some vt ->
  ∃ r, validate (createdDocument parsed oid req) = Some r.
Proof.
  intros Ht Hne Hv. apply truthy_true in Hne.
  unfold validate, createdDocument, new_Record, set_vitals.
  rewrite Ht, Hv.
  destruct (files_labReport (req_files req)),
    (files_prescription (req_files req)); simpl; rewrite Hne; eauto.
Qed.

Section RecordHandlers.

Variable JSON_parse : string -> option json.
Variable isObjectId : string -> bool.

(** X1.  A create request with a non-empty title, vitals that are absent
    or parse and cast, a working database and a fresh _id is answered with
    status 201 and the stored record: its owner is the caller, its text
    fields are those of the request with the schema defaults, and each
    uploaded file is on disk at the very path its stored reference
    names. *)
Theorem X1_create_stores_the_request oid req w parsed evp t vt :
  body_title (req_body req) = Some t -> t ≠ "" ->
  parses JSON_parse (req_body req) parsed evp ->
  castVitals (default (JObject []) parsed) = Some vt ->
  dbFails w = false ->
  records w !! oid = None ->
  ∃ r' w',
    route_post JSON_parse oid req w
    = (mkResponse 201 (RecordJson r'), w',
       uploadEvents req ++ evp ++ [RecordInserted oid])
    ∧ records w' = <[oid := r']> (records w)
    ∧ disk w' = uploadedPaths req ∪ disk w
    ∧ _id r' = oid ∧ user r' = req_user_id req ∧ title r' = t
    ∧ medicalHistory r' = default "" (body_medicalHistory (req_body req))
    ∧ doctorNotes r' = default "" (body_doctorNotes (req_body req))
    ∧ vitals r' = vt
    ∧ match files_labReport (req_files req) with
      | Some f =>
          labReport (files r') = buildPublicPath "records" (filename f)
          ∧ fullPathOf (labReport (files r')) ∈ disk w'
      | None => labReport (files r') = ""
      end
    ∧ match files_prescription (req_files req) with
      | Some f =>
          prescription (files r') = buildPublicPath "records" (filename f)
          ∧ fullPathOf (prescription (files r')) ∈ disk w'
      | None => prescription (files r') = ""
      end.
Proof.
  intros Ht Hne Hp Hc Hdb Hfree.
  destruct (validate_created_ok parsed oid req t vt Ht Hne Hc) as [r Hv].
  pose proof (validate_created _ _ _ _ Hv)
    as (Hid & Hu & Ht' & _ & Hmh & Hdn & Hvit & Hlab & Hrx).
  rewrite route_post_run, (createRecord_good _ _ _ _ _ _ Hp), save_run, Hv.
  change (dbFails (with_disk _ w)) with (dbFails w).
  change (records (with_disk _ w)) with (records w).
  rewrite Hdb, Hid, Hfree, createdDocument_isNew.
  eexists r, _. split; [reflexivity |]. simpl.
  split_and!; try done; try congruence.
  - destruct (files_labReport (req_files req)) as [f|] eqn:Hf; [| done].
    split; [done |]. rewrite Hlab. unfold uploadedPaths, uploadTargets.
    rewrite Hf. set_solver.
  - destruct (files_prescription (req_files req)) as [f|] eqn:Hf; [| done].
    split; [done |]. rewrite Hrx. unfold uploadedPaths, uploadTargets.
    rewrite Hf. set_solver.
Qed.

(** An update stops before the handler's edits unless the caller owns the
    record addressed. *)
Lemma put_reaches_owner req w res w' evs :
  route_put JSON_parse isObjectId req w = (res, w', evs) ->
  (∃ r, isObjectId (req_params_id req) = true ∧ dbFails w = false
        ∧ records w !! req_params_id req = Some r
        ∧ user r = req_user_id req)
  ∨ (records w' = records w ∧ users w' = users w
     ∧ disk w' = uploadedPaths req ∪ disk w
     ∧ (res = UpdateFailed ∨ res = NotFoundError ∨ res = UnauthorizedError)).
Proof.
  rewrite route_put_run, updateRecord_run.
  change (dbFails (with_disk _ w)) with (dbFails w).
  change (records (with_disk _ w)) with (records w).
  destruct (isObjectId _) eqn:Hid; [| intros [= <- <- <-]; right; eauto 6].
  destruct (dbFails w) eqn:Hdb; [intros [= <- <- <-]; right; eauto 6 |].
  destruct (records w !! _) as [r|] eqn:Hr;
    [| intros [= <- <- <-]; right; eauto 6].
  destruct (String.eqb _ _) eqn:Hu; [| intros [= <- <- <-]; right; eauto 7].
  intros _. left. exists r. apply String.eqb_eq in Hu. eauto.
Qed.

Lemma delete_reaches_owner req w res w' evs :
  route_delete isObjectId req w = (res, w', evs) ->
  (∃ r, isObjectId (req_params_id req) = true ∧ dbFails w = false
        ∧ records w !! req_params_id req = Some r
        ∧ user r = req_user_id req)
  ∨ (records w' = records w ∧ users w' = users w ∧ disk w' = disk w).
Proof.
  unfold route_delete, serve. rewrite deleteRecord_run.
  destruct (isObjectId _) eqn:Hid; [| intros [= <- <- <-]; right; eauto].
  destruct (dbFails w) eqn:Hdb; [intros [= <- <- <-]; right; eauto |].
  destruct (records w !! _) as [r|] eqn:Hr;
    [| intros [= <- <- <-]; right; eauto].
  destruct (String.eqb _ _) eqn:Hu; [| intros [= <- <- <-]; right; eauto].
  intros _. left. exists r. apply String.eqb_eq in Hu. eauto.
Qed.

(** X2.  An update or delete request whose id is an ObjectId in its
    canonical spelling (24 lower-case hexadecimal digits, the spelling
    under which records are stored) and under which no record is stored, on
    a working database, is answered with NotFoundError.  No record changes;
    the delete touches no file and the update leaves on disk what was there
    plus the files uploaded with it. *)
Theorem X2_absent_record_is_not_found req w :
  canonicalId (req_params_id req) = true ->
  isObjectId (req_params_id req) = true ->
  dbFails w = false ->
  records w !! req_params_id req = None ->
  (∃ w', route_put JSON_parse isObjectId req w
         = (NotFoundError, w', uploadEvents req)
         ∧ records w' = records w
         ∧ disk w' = uploadedPaths req ∪ disk w)
  ∧ (∃ w', route_delete isObjectId req w = (NotFoundError, w', [])
           ∧ records w' = records w ∧ disk w' = disk w).
Proof.
  intros _ Hid Hdb Hr. split.
  - rewrite route_put_run, updateRecord_run, Hid.
    change (dbFails (with_disk _ w)) with (dbFails w).
    change (records (with_disk _ w)) with (records w).
    rewrite Hdb, Hr, app_nil_r. by eexists.
  - unfold route_delete, serve. rewrite deleteRecord_run, Hid, Hdb, Hr.
    by eexists.
Qed.

(** X3.  An id that does not cast to an ObjectId makes the lookup throw:
    update and delete answer with status 500 and their failure message,
    not with NotFoundError, without asking the database and without
    changing a record. *)
Theorem X3_malformed_id_is_a_server_error req w :
  isObjectId (req_params_id req) = false ->
  route_put JSON_parse isObjectId req w
  = (UpdateFailed, with_disk (uploadedPaths req ∪ disk w) w,
     uploadEvents req ++ [Logged "updateRecord error:"])
  ∧ route_delete isObjectId req w
    = (mkResponse 500 (Message "Delete record failed"), w,
       [Logged "deleteRecord error:"])
  ∧ UpdateFailed ≠ NotFoundError.
Proof.
  intros Hid. split_and!; [| | done].
  - by rewrite route_put_run, updateRecord_run, Hid.
  - unfold route_delete, serve. by rewrite deleteRecord_run, Hid.
Qed.

(** X4.  An update or delete, addressed by an id in its canonical spelling
    (24 lower-case hexadecimal digits), that changes the records collection
    or removes a file from disk was sent by the owner of the record it
    addresses. *)
Theorem X4_only_the_owner_changes_anything req w res w' evs :
  canonicalId (req_params_id req) = true ->
  route_put JSON_parse isObjectId req w = (res, w', evs)
  ∨ route_delete isObjectId req w = (res, w', evs) ->
  records w' ≠ records w ∨ ¬ (disk w ⊆ disk w') ->
  ∃ r, records w !! req_params_id req = Some r
       ∧ user r = req_user_id req.
Proof.
  intros _ [Hrun | Hrun] Hchange.
  - destruct (put_reaches_owner _ _ _ _ _ Hrun)
      as [(r & _ & _ & Hr & Hu) | (Hrec & _ & Hdisk & _)]; [eauto |].
    exfalso. destruct Hchange as [Hc | Hc]; [done |].
    apply Hc. rewrite Hdisk. set_solver.
  - destruct (delete_reaches_owner _ _ _ _ _ Hrun)
      as [(r & _ & _ & Hr & Hu) | (Hrec & _ & Hdisk)]; [eauto |].
    exfalso. destruct Hchange as [Hc | Hc]; [done |].
    apply Hc. by rewrite Hdisk.
Qed.

(** What an update does to the collection, when the collection is keyed
    by _id. *)
Lemma put_records_cases req w res w' evs :
  wellFormed w ->
  route_put JSON_parse isObjectId req w = (res, w', evs) ->
  (records w' = records w ∧ status res ≠ 200)
  ∨ (∃ r r' parsed,
       records w !! req_params_id req = Some r
       ∧ user r = req_user_id req
       ∧ validate (updatedDocument parsed req (hydrate r)) = Some r'
       ∧ res = mkResponse 200 (RecordJson r')
       ∧ records w' = <[req_params_id req := r']> (records w)).
Proof.
  intros Hwf Hrun.
  destruct (put_reaches_owner _ _ _ _ _ Hrun)
    as [(r & Hid & Hdb & Hr & Hu) | (Hrec & _ & _ & Hres)].
  - destruct (Hwf _ _ Hr) as [Hrid _].
    assert (Hf : finds isObjectId w (req_params_id req) r).
    { unfold finds. rewrite <- dbFails_head. done. }
    destruct (put_owner_cases _ _ _ _ _ _ _ _ Hf Hu Hrun)
      as [(text & _ & _ & -> & -> & _) | (parsed & evp & _ & Hcase)];
      [by left |].
    cbv zeta in Hcase.
    destruct Hcase as (_ & [(-> & Hrec & _) | (r' & Hv & _ & -> & Hrec & _)]);
      [by left |].
    right. exists r, r', parsed. rewrite Hrid in Hrec. done.
  - left. split; [done |]. by destruct Hres as [-> | [-> | ->]].
Qed.

(** X5.  An update addressed by an id in its canonical spelling (24
    lower-case hexadecimal digits) leaves every record other than the one
    addressed exactly as stored, creates and removes no record, and never
    changes the _id or the owner of the record it rewrites. *)
Theorem X5_update_touches_one_record req w res w' evs :
  canonicalId (req_params_id req) = true ->
  wellFormed w ->
  route_put JSON_parse isObjectId req w = (res, w', evs) ->
  (∀ id', id' ≠ req_params_id req -> records w' !! id' = records w !! id')
  ∧ dom (records w') = dom (records w)
  ∧ (∀ r r', records w !! req_params_id req = Some r ->
       records w' !! req_params_id req = Some r' ->
       _id r' = _id r ∧ user r' = user r).
Proof.
  intros _ Hwf Hrun.
  destruct (put_records_cases _ _ _ _ _ Hwf Hrun)
    as [[Hrec _] | (r & r' & parsed & Hr & _ & Hv & _ & Hrec)].
  - rewrite Hrec. split_and!; try done.
    intros r r' H1 H2. by simplify_eq.
  - pose proof (validate_updated _ _ _ _ Hv) as (Hid & Hu & _).
    rewrite Hrec. split_and!.
    + intros id' Hne. by rewrite lookup_insert_ne.
    + rewrite dom_insert_L. apply elem_of_dom_2 in Hr. set_solver.
    + intros r0 r0' H1 H2. rewrite lookup_insert_eq in H2. by simplify_eq.
Qed.

Lemma delete_records_cases req w res w' evs :
  route_delete isObjectId req w = (res, w', evs) ->
  records w' = records w
  ∨ (∃ r, records w !! req_params_id req = Some r
          ∧ records w' = delete (_id r) (records w)).
Proof.
  unfold route_delete, serve. rewrite deleteRecord_run. cbv zeta.
  intros Hrun. repeat case_match; simplify_eq; eauto.
Qed.

Lemma deleteAccount_records_cases req w res w' evs :
  route_deleteAccount req w = (res, w', evs) ->
  records w' = records w
  ∨ records w'
    = filter (fun kv => user (snd kv) ≠ req_user_id req) (records w).
Proof.
  unfold route_deleteAccount, serve, deleteAccount, tryCatch,
    Record_deleteMany, User_findByIdAndDelete, bind, ret.
  rewrite dbCall_run. destruct (dbFails w); simpl.
  - intros [= <- <- <-]. by left.
  - rewrite dbCall_run. simpl.
    destruct (dbFails _); simpl; intros [= <- <- <-]; by right.
Qed.

(** X6.  The four routes that write keep the collection well formed: after
    a create, update, record delete or account delete, whatever its
    outcome, every stored record is still filed under its own _id and has a
    non-empty title. *)
Theorem X6_routes_keep_the_collection_well_formed oid req w :
  wellFormed w ->
  (∀ res w' evs,
      route_post JSON_parse oid req w = (res, w', evs) -> wellFormed w')
  ∧ (∀ res w' evs,
      route_put JSON_parse isObjectId req w = (res, w', evs) ->
      wellFormed w')
  ∧ (∀ res w' evs,
      route_delete isObjectId req w = (res, w', evs) -> wellFormed w')
  ∧ (∀ res w' evs,
      route_deleteAccount req w = (res, w', evs) -> wellFormed w').
Proof.
  intros Hwf. split_and!; intros res w' evs Hrun id r Hr.
  - destruct (post_cases _ _ _ _ _ _ _ Hrun)
      as (_ & [(text & _ & _ & _ & Hrec & _)
              | (parsed & evp & _ & [(_ & Hrec & _)
                                    | (r' & Hv & _ & _ & _ & Hrec & _)])]);
      rewrite Hrec in Hr; try by apply Hwf.
    pose proof (validate_created _ _ _ _ Hv) as (Hid & _ & _ & Ht & _).
    destruct (decide (id = oid)) as [-> | Hne].
    + rewrite lookup_insert_eq in Hr. simplify_eq.
      split; [done |]. by apply truthy_true.
    + rewrite lookup_insert_ne in Hr by done. by apply Hwf.
  - destruct (put_records_cases _ _ _ _ _ Hwf Hrun)
      as [[Hrec _] | (r0 & r' & parsed & Hr0 & _ & Hv & _ & Hrec)];
      rewrite Hrec in Hr; [by apply Hwf |].
    pose proof (validate_updated _ _ _ _ Hv) as (Hid & _ & _ & Ht & _).
    destruct (decide (id = req_params_id req)) as [-> | Hne].
    + rewrite lookup_insert_eq in Hr. simplify_eq.
      split; [| by apply truthy_true].
      rewrite Hid. by apply Hwf.
    + rewrite lookup_insert_ne in Hr by done. by apply Hwf.
  - destruct (delete_records_cases _ _ _ _ _ Hrun)
      as [Hrec | (r0 & _ & Hrec)]; rewrite Hrec in Hr; [by apply Hwf |].
    apply lookup_delete_Some in Hr as [_ Hr]. by apply Hwf.
  - destruct (deleteAccount_records_cases _ _ _ _ _ Hrun) as [Hrec | Hrec];
      rewrite Hrec in Hr; [by apply Hwf |].
    apply map_lookup_filter_Some in Hr as [Hr _]. by apply Hwf.
Qed.

(** X7.  When the database fails at [deleteOne], after the lookup served
    the owner's delete request, the answer is status 500 and the record
    stays stored, but its attachments were already removed: every
    attachment that was on disk and could be removed is gone. *)
Theorem X7_failed_delete_has_removed_the_files req w r :
  finds isObjectId w (req_params_id req) r ->
  user r = req_user_id req ->
  dbFails (afterDbCall w) = true ->
  ∃ w' evs,
    route_delete isObjectId req w
    = (mkResponse 500 (Message "Delete record failed"), w', evs)
    ∧ records w' = records w
    ∧ ∀ p, p = labReport (files r) ∨ p = prescription (files r) ->
        truthy p = true -> p ∈ disk w -> p ∉ undeletable w ->
        p ∉ disk w'.
Proof.
  intros Hf Hu Hdb2. apply finds_lookup in Hf as (Hid & Hdb & Hr & Hrid).
  apply String.eqb_eq in Hu.
  unfold route_delete, serve. rewrite deleteRecord_run, Hid, Hdb, Hr, Hu.
  cbv zeta.
  set (w1 := afterDbCall w) in *.
  set (u1 := unlinkResult (labReport (files r)) w1).
  set (w2 := with_disk u1.1 w1).
  set (u2 := unlinkResult (prescription (files r)) w2).
  change (dbFails (with_disk u2.1 w2)) with (dbFails w1). rewrite Hdb2.
  eexists _, _. split; [reflexivity |]. split; [done |].
  intros p Hp Ht Hd Hund Hin. simpl in Hin. subst u2.
  apply unlinkResult_disk in Hin as [Hin Hrx]. subst w2 u1. simpl in Hin.
  apply unlinkResult_disk in Hin as [_ Hlab].
  destruct Hp as [-> | ->]; [apply Hund, Hlab | apply Hund, Hrx]; done.
Qed.

(** X8.  With a working database, deleting an account removes exactly the
    records owned by the caller, leaves every record of another owner as
    stored, removes the caller from the users, and touches no file. *)
Theorem X8_account_delete_removes_the_callers_records req w :
  dbFails w = false ->
  dbFails (afterDbCall w) = false ->
  ∃ w',
    route_deleteAccount req w
    = (mkResponse 200 (Message "Account and records deleted"), w',
       [RecordsDeletedOf (req_user_id req); UserDeleted (req_user_id req)])
    ∧ (∀ id r, records w' !! id = Some r ↔
               records w !! id = Some r ∧ user r ≠ req_user_id req)
    ∧ users w' = users w ∖ {[req_user_id req]}
    ∧ disk w' = disk w.
Proof.
  intros Hdb1 Hdb2.
  unfold route_deleteAccount, serve, deleteAccount, tryCatch,
    Record_deleteMany, User_findByIdAndDelete, bind, ret.
  rewrite dbCall_run, Hdb1. simpl. rewrite dbCall_run. simpl.
  change (dbFails (with_records _ (afterDbCall w)))
    with (dbFails (afterDbCall w)). rewrite Hdb2.
  eexists. split; [reflexivity |]. simpl. split_and!; try done.
  intros id r. by rewrite map_lookup_filter_Some.
Qed.

(** X9.  Account deletion is not atomic.  If the database fails at the
    first call nothing is deleted; if it fails at the second, the caller's
    records are already gone while the account is still there.  Both are
    answered with status 500. *)
Theorem X9_account_delete_can_stop_halfway req w :
  (dbFails w = true ->
   ∃ res w' evs,
     route_deleteAccount req w = (res, w', evs) ∧ status res = 500
     ∧ records w' = records w ∧ users w' = users w)
  ∧ (dbFails w = false -> dbFails (afterDbCall w) = true ->
     ∃ res w' evs,
       route_deleteAccount req w = (res, w', evs) ∧ status res = 500
       ∧ (∀ id r, records w' !! id = Some r -> user r ≠ req_user_id req)
       ∧ users w' = users w).
Proof.
  unfold route_deleteAccount, serve, deleteAccount, tryCatch,
    Record_deleteMany, User_findByIdAndDelete, bind, ret.
  rewrite dbCall_run. split.
  - intros ->. simpl. by eexists _, _, _.
  - intros -> Hdb2. simpl. rewrite dbCall_run. simpl.
    change (dbFails (with_records _ (afterDbCall w)))
      with (dbFails (afterDbCall w)). rewrite Hdb2. simpl.
    eexists _, _, _. split; [reflexivity |]. simpl. split_and!; try done.
    intros id r Hr. by apply map_lookup_filter_Some in Hr as [_ Hr].
Qed.

End RecordHandlers.

Lemma segments_plain name :
  hasSeparator name = false -> segments name = [name].
Proof.
  induction name as [| c rest IH]; [done |]. simpl.
  destruct (Ascii.eqb c "/") eqn:Hc; [done |]. simpl.
  intros Hs. by rewrite (IH Hs).
Qed.

Lemma segments_joined name rest :
  hasSeparator name = false ->
  segments (name +:+ "/" +:+ rest) = name :: segments rest.
Proof.
  induction name as [| c name IH]; [done |]. simpl.
  destruct (Ascii.eqb c "/") eqn:Hc; [done |]. simpl.
  intros Hs. by rewrite (IH Hs).
Qed.

(** The references [buildPublicPath] makes from a folder and a file name
    that are proper names are in normal form. *)
Lemma buildPublicPath_normal folder filename :
  hasSeparator folder = false -> hasSeparator filename = false ->
  properName folder = true -> properName filename = true ->
  normalPath (buildPublicPath folder filename) = true.
Proof.
  intros Hs1 Hs2 Hp1 Hp2. unfold normalPath, buildPublicPath.
  change ("/uploads/" +:+ folder +:+ "/" +:+ filename)
    with ("" +:+ "/" +:+ "uploads" +:+ "/" +:+ folder +:+ "/" +:+ filename).
  rewrite !segments_joined, segments_plain by done.
  simpl. by rewrite Hp1, Hp2.
Qed.

(** X10.  Given the empty path or a path in normal form (a leading
    separator, then names other than ["."] and [".."] with one separator
    between them, as [buildPublicPath] makes them), [deleteFileIfExists]
    never throws and touches nothing but the file it is given: every other
    file stays, records and users stay, and the file itself is gone
    afterwards unless its path is empty or it cannot be removed.  A second
    call changes nothing more. *)
Theorem X10_deleteFileIfExists_is_contained p w :
  p = "" ∨ normalPath p = true ->
  ∃ w' evs,
    deleteFileIfExists p w = (inr tt, w', evs)
    ∧ records w' = records w ∧ users w' = users w
    ∧ (∀ q, q ≠ p -> q ∈ disk w' ↔ q ∈ disk w)
    ∧ (p ∈ disk w' ↔ p ∈ disk w ∧ (p = "" ∨ p ∈ undeletable w))
    ∧ (deleteFileIfExists p w').1.2 = w'.
Proof.
  intros _.
  rewrite deleteFileIfExists_run. eexists _, _. split; [reflexivity |].
  simpl. split_and!; try done.
  - intros q Hq. rewrite unlinkResult_disk. naive_solver.
  - rewrite unlinkResult_disk. split.
    + intros [Hd Hu]. split; [done |].
      destruct (truthy p) eqn:Ht; [right; by apply Hu |].
      left. by apply truthy_empty.
    + intros [Hd Hu]. split; [done |]. intros _ Ht.
      destruct Hu as [-> | Hu]; done.
  - rewrite deleteFileIfExists_run. simpl.
    destruct w as [rs us d ud fs]. unfold with_disk. simpl. f_equal.
    apply set_eq. intros q. rewrite !unlinkResult_disk. simpl.
    rewrite unlinkResult_disk. simpl. naive_solver.
Qed.

(** ** How the routes compose *)

Lemma validate_updated_again parsed req r r' :
  validate (updatedDocument parsed req (hydrate r)) = Some r' ->
  validate (updatedDocument parsed req (hydrate r')) = Some r'.
Proof.
  unfold validate, updatedDocument, hydrate.
  destruct (body_title (req_body req)) as [t|],
    (body_medicalHistory (req_body req)) as [mh|],
    (body_doctorNotes (req_body req)) as [dn|],
    (files_labReport (req_files req)) as [f|],
    (files_prescription (req_files req)) as [g|],
    parsed as [v|]; simpl; unfold set_vitals;
    try destruct (castVitals v) as [vt|]; simpl; try done;
    match goal with
    | |- context [truthy ?t] => destruct (truthy t) eqn:Ht; [| done]
    end;
    intros [= <-]; simpl; by rewrite ?Ht.
Qed.

Lemma no_uploads_paths req :
  files_labReport (req_files req) = None ->
  files_prescription (req_files req) = None ->
  uploadedPaths req = ∅ ∧ uploadEvents req = [].
Proof.
  unfold uploadedPaths, uploadEvents, uploadTargets. by intros -> ->.
Qed.

Lemma with_disk_empty_union w : with_disk (∅ ∪ disk w) w = w.
Proof.
  destruct w as [rs us d ud fs]. unfold with_disk. simpl. f_equal.
  set_solver.
Qed.

Section Compositions.

Variable JSON_parse : string -> option json.
Variable isObjectId : string -> bool.

(** A successful create, as a run. *)
Lemma post_success_run oid req w parsed evp r' :
  parses JSON_parse (req_body req) parsed evp ->
  validate (createdDocument parsed oid req) = Some r' ->
  dbFails w = false ->
  records w !! oid = None ->
  route_post JSON_parse oid req w
  = (mkResponse 201 (RecordJson r'),
     with_records (<[oid := r']> (records w))
       (afterDbCall (with_disk (uploadedPaths req ∪ disk w) w)),
     uploadEvents req ++ evp ++ [RecordInserted oid]).
Proof.
  intros Hp Hv Hdb Hfree.
  pose proof (validate_created _ _ _ _ Hv) as (Hid & _).
  rewrite route_post_run, (createRecord_good _ _ _ _ _ _ Hp), save_run, Hv.
  change (dbFails (with_disk _ w)) with (dbFails w).
  change (records (with_disk _ w)) with (records w).
  by rewrite Hdb, Hid, Hfree, createdDocument_isNew.
Qed.

(** A successful update without uploads on a database that serves every
    call, as a run. *)
Lemma put_plain_success_run req w r parsed evp r' :
  finds isObjectId w (req_params_id req) r ->
  user r = req_user_id req ->
  files_labReport (req_files req) = None ->
  files_prescription (req_files req) = None ->
  dbFaults w = [] ->
  parses JSON_parse (req_body req) parsed evp ->
  validate (updatedDocument parsed req (hydrate r)) = Some r' ->
  route_put JSON_parse isObjectId req w
  = (mkResponse 200 (RecordJson r'),
     with_records (<[req_params_id req := r']> (records w)) w,
     OwnerChecked (req_params_id req) true
       :: evp ++ [RecordSaved (req_params_id req)]).
Proof.
  intros Hf Hu Hl Hx Hfs Hp Hv.
  apply finds_lookup in Hf as (Hid & Hdb & Hr & Hrid).
  apply String.eqb_eq in Hu.
  destruct (no_uploads_paths req Hl Hx) as [Hup Hev].
  pose proof (validate_updated _ _ _ _ Hv) as (Hid' & _).
  rewrite route_put_run, Hup, Hev, with_disk_empty_union.
  rewrite updateRecord_run, Hid, Hdb, Hr, Hu, (afterDbCall_nil w Hfs).
  rewrite (applyUpdate_good _ _ _ _ _ _ Hp), Hl, Hx. cbv zeta. simpl.
  rewrite save_run, Hv, (dbFails_nil w Hfs), Hid', Hrid, Hr.
  rewrite updatedDocument_isNew, (afterDbCall_nil w Hfs). simpl.
  reflexivity.
Qed.

(** X12.  An update without uploaded files is idempotent: once it has
    succeeded on a database that serves every call, sending the same
    request again gives the same answer and leaves the world as the first
    run left it. *)
Theorem X12_update_without_files_is_idempotent req w r res w' evs :
  finds isObjectId w (req_params_id req) r ->
  user r = req_user_id req ->
  files_labReport (req_files req) = None ->
  files_prescription (req_files req) = None ->
  dbFaults w = [] ->
  route_put JSON_parse isObjectId req w = (res, w', evs) ->
  status res = 200 ->
  route_put JSON_parse isObjectId req w' = (res, w', evs).
Proof.
  intros Hf Hu Hl Hx Hfs Hrun Hok.
  pose proof (finds_lookup _ _ _ _ Hf) as (Hid & _ & _ & Hrid).
  destruct (put_owner_cases _ _ _ _ _ _ _ _ Hf Hu Hrun)
    as [(text & _ & _ & -> & _) | (parsed & evp & Hp & Hcase)]; [done |].
  cbv zeta in Hcase.
  destruct Hcase as (_ & [(-> & _) | (r' & Hv & _)]); [done |].
  rewrite (put_plain_success_run _ _ _ _ _ _ Hf Hu Hl Hx Hfs Hp Hv) in Hrun.
  injection Hrun as <- <- <-.
  pose proof (validate_updated _ _ _ _ Hv) as (Hid' & Hu' & _).
  set (w1 := with_records (<[req_params_id req := r']> (records w)) w).
  assert (Hf1 : finds isObjectId w1 (req_params_id req) r').
  { unfold finds. simpl. rewrite Hfs, lookup_insert_eq.
    split_and!; [done | done | done | congruence]. }
  assert (Hu1 : user r' = req_user_id req) by congruence.
  rewrite (put_plain_success_run req w1 r' parsed evp r' Hf1 Hu1 Hl Hx Hfs Hp
             (validate_updated_again _ _ _ _ Hv)).
  do 2 f_equal. subst w1. destruct w as [rs us d ud fs].
  unfold with_records. simpl. f_equal. apply insert_insert_eq.
Qed.

(** X11.  Create followed by the owner's delete undoes the create: when a
    create has succeeded on a database that serves every call and the
    uploaded files can be removed, the delete request of the same caller
    for the new _id succeeds, the records collection is again what it was
    before the create, and the disk holds what it held before minus the
    paths the upload wrote. *)
Theorem X11_delete_undoes_create oid req dreq w res w1 evs :
  isObjectId oid = true ->
  dbFaults w = [] ->
  (∀ p, p ∈ uploadedPaths req -> p ∉ undeletable w) ->
  req_params_id dreq = oid ->
  req_user_id dreq = req_user_id req ->
  route_post JSON_parse oid req w = (res, w1, evs) ->
  status res = 201 ->
  ∃ w2 evs2,
    route_delete isObjectId dreq w1 = (Deleted, w2, evs2)
    ∧ records w2 = records w
    ∧ ∀ p, p ∈ disk w2 ↔ p ∈ disk w ∧ p ∉ uploadedPaths req.
Proof.
  intros Hid Hfs Hund Hdid Hduser Hrun Hok.
  destruct (post_cases _ _ _ _ _ _ _ Hrun)
    as (_ & [(text & _ & _ & -> & _)
            | (parsed & evp & Hp & [(-> & _)
                                   | (r' & Hv & Hdb & Hfree & _)])]);
    try done.
  rewrite (post_success_run _ _ _ _ _ _ Hp Hv Hdb Hfree) in Hrun.
  injection Hrun as <- <- <-.
  pose proof (validate_created _ _ _ _ Hv)
    as (Hrid & Hu & _ & _ & _ & _ & _ & Hlab & Hrx).
  unfold route_delete, serve.
  rewrite deleteRecord_run, Hdid, Hid.
  rewrite (afterDbCall_nil _ (Hfs : dbFaults (with_disk _ w) = [])).
  set (w0 := with_disk (uploadedPaths req ∪ disk w) w).
  set (wc := with_records (<[oid := r']> (records w)) w0).
  assert (Hfs1 : dbFaults wc = []) by done.
  rewrite (dbFails_nil wc Hfs1).
  change (records wc !! oid) with (<[oid := r']> (records w) !! oid).
  rewrite lookup_insert_eq, Hduser.
  rewrite (proj2 (String.eqb_eq _ _) Hu). cbv zeta.
  rewrite (afterDbCall_nil wc Hfs1).
  set (u1 := unlinkResult (labReport (files r')) wc).
  set (w2 := with_disk u1.1 wc).
  set (u2 := unlinkResult (prescription (files r')) w2).
  set (w3 := with_disk u2.1 w2).
  assert (Hfs3 : dbFaults w3 = []) by done.
  rewrite (dbFails_nil w3 Hfs3), (afterDbCall_nil w3 Hfs3).
  eexists _, _. split; [reflexivity |]. simpl.
  split.
  - rewrite Hrid, delete_insert_eq. by apply delete_id.
  - intros p. subst u2. rewrite unlinkResult_disk. subst w2 u1. simpl.
    rewrite unlinkResult_disk. simpl.
    rewrite Hlab, Hrx. clear Hlab Hrx Hv.
    unfold uploadedPaths, uploadTargets, fullPathOf in *.
    destruct (files_labReport (req_files req)) as [f|],
      (files_prescription (req_files req)) as [g|];
      try (pose proof (eq_refl : truthy (buildPublicPath "records" (filename f))
                                 = true) as HtL;
           set (L := buildPublicPath "records" (filename f)) in *;
           clearbody L);
      try (pose proof (eq_refl : truthy (buildPublicPath "records" (filename g))
                                 = true) as HtX;
           set (X := buildPublicPath "records" (filename g)) in *;
           clearbody X);
      cbn [truthy] in *; set_unfold; clear w3 wc w0;
      intuition (subst; try discriminate; eauto);
      exfalso; eapply Hund; eauto.
Qed.

End Compositions.

(** ** Listing *)

Section ListingProperties.

Variable createdAt : string -> nat.

Lemma newerFirst_total : Total (newerFirst createdAt).
Proof. intros a b. unfold newerFirst. lia. Qed.

Lemma newerFirst_trans : Transitive (newerFirst createdAt).
Proof. intros a b c. unfold newerFirst. lia. Qed.

(** X13.  On a working database the listing answers with status 200 and
    exactly the records of the caller, each stored record once, the most
    recently created first; a caller without records gets the empty list.
    When the database fails the answer is status 500 with "Fetch records
    failed".  In both cases no record and no file is touched. *)
Theorem X13_listing_returns_the_callers_records_newest_first req w :
  (dbFails w = false ->
   ∃ l,
     route_get createdAt req w
     = (mkListResponse 200 (RecordsJson l), afterDbCall w, [])
     ∧ (∀ r, r ∈ l ↔ ∃ id, records w !! id = Some r
                           ∧ user r = req_user_id req)
     ∧ length l
       = size (filter (fun kv => user (snd kv) = req_user_id req) (records w))
     ∧ StronglySorted (newerFirst createdAt) l
     ∧ ((∀ id r, records w !! id = Some r -> user r ≠ req_user_id req) ->
        l = []))
  ∧ (dbFails w = true ->
     route_get createdAt req w
     = (mkListResponse 500 (ListMessage "Fetch records failed"),
        afterDbCall w, [Logged "getRecords error:"])).
Proof.
  unfold route_get, getRecords, tryCatch, Record_find_sorted, bind, ret,
    console_error, emit.
  rewrite dbCall_run. split; intros ->; simpl; [| done].
  eexists. split; [reflexivity |].
  set (m := filter (fun kv => user (snd kv) = req_user_id req) (records w)).
  pose proof (@merge_sort_Permutation _ (newerFirst createdAt)
                (newerFirst_dec createdAt) (map_to_list m).*2) as Hperm.
  assert (Hmem : ∀ r, r ∈ @merge_sort _ (newerFirst createdAt)
                            (newerFirst_dec createdAt) (map_to_list m).*2
                      ↔ ∃ id, records w !! id = Some r
                              ∧ user r = req_user_id req).
  { intros r. rewrite Hperm, list_elem_of_fmap. split.
    + intros ([id r0] & -> & Hin). apply elem_of_map_to_list in Hin.
      subst m. apply map_lookup_filter_Some in Hin as [Hr Hu]. eauto.
    + intros (id & Hr & Hu). exists (id, r). split; [done |].
      apply elem_of_map_to_list. subst m. by apply map_lookup_filter_Some. }
  split_and!.
  - exact Hmem.
  - by rewrite Hperm, length_fmap, length_map_to_list.
  - apply (@StronglySorted_merge_sort _ (newerFirst createdAt)
             (newerFirst_dec createdAt) newerFirst_trans newerFirst_total).
  - intros Hnone.
    apply elem_of_nil_inv. intros r Hin.
    apply Hmem in Hin as (id & Hr & Hu). by eapply Hnone.
Qed.

End ListingProperties.

(** * Profile and password *)

Lemma falsy_cases (s : option string) :
  falsy s = true ↔ s = None ∨ s = Some "".
Proof.
  destruct s as [[|c t]|]; simpl; split; intros H; eauto;
    try discriminate; by destruct H as [H | H].
Qed.

Lemma falsy_some (t : string) : t ≠ "" -> falsy (Some t) = false.
Proof. by destruct t. Qed.

Section UserProperties.

Variable User_findOne_other : string -> string -> M (option UserDoc).
Variable User_save : UserDoc -> M UserDoc.
Variable bcrypt_compare : string -> string -> M bool.

(** X14.  A profile update is refused with status 400 before anything is
    saved.  Without a name or an email, or with an empty one, the handler
    answers "Name and email required" without any call to the User model;
    when the model finds another user with the email it answers "Email
    already in use" and the world is as the lookup left it.  In neither
    case is [save] reached, whatever [save] does.  The picture sent with a
    refused update has all the same been written to disk by the upload
    middleware. *)
Theorem X14_refused_profile_update_saves_nothing req w :
  (ureq_name req = None ∨ ureq_name req = Some ""
   ∨ ureq_email req = None ∨ ureq_email req = Some "" ->
   updateProfile User_findOne_other User_save req w
   = (inr (mkUserResponse 400 (UserMessage "Name and email required")), w, [])
   ∧ ∀ f, ureq_file req = Some (mkReceivedFile "profile" f) ->
       route_updateProfile User_findOne_other User_save req w
       = (mkUserResponse 400 (UserMessage "Name and email required"),
          with_disk ({["/uploads/profile/" +:+ filename f]} ∪ disk w) w,
          [FileWritten ("/uploads/profile/" +:+ filename f)]))
  ∧ (∀ n e other w1 e1,
       ureq_name req = Some n -> n ≠ "" ->
       ureq_email req = Some e -> e ≠ "" ->
       User_findOne_other e (u_id (ureq_user req)) w
       = (inr (Some other), w1, e1) ->
       updateProfile User_findOne_other User_save req w
       = (inr (mkUserResponse 400 (UserMessage "Email already in use")),
          w1, e1)).
Proof.
  split.
  - intros Hmissing.
    assert (Hf : falsy (ureq_name req) || falsy (ureq_email req) = true).
    { apply orb_true_iff. rewrite !falsy_cases. tauto. }
    assert (Hrun : ∀ w0,
               updateProfile User_findOne_other User_save req w0
               = (inr (mkUserResponse 400
                         (UserMessage "Name and email required")), w0, [])).
    { intros w0. unfold updateProfile, tryCatch. by rewrite Hf. }
    split; [apply Hrun |].
    intros f Hfile. unfold route_updateProfile, serveUser, bind, upload_single.
    rewrite Hfile. simpl. by rewrite Hrun.
  - intros n e other w1 e1 Hn Hne He Hee Hfind.
    unfold updateProfile, tryCatch. rewrite Hn, He.
    rewrite (falsy_some n Hne), (falsy_some e Hee). simpl.
    unfold bind. rewrite Hfind. simpl. by rewrite app_nil_r.
Qed.

(** X15.  When a profile update with a picture reaches [save], the
    document saved carries the new name and email, the old password, and
    the picture reference /uploads/profilePictures/<filename>, while the
    upload middleware stored the file as /uploads/profile/<filename>: the
    saved reference is never the path of the uploaded file. *)
Theorem X15_profile_picture_reference_misses_the_file req w f n e w1 e1 :
  ureq_name req = Some n -> n ≠ "" ->
  ureq_email req = Some e -> e ≠ "" ->
  ureq_file req = Some (mkReceivedFile "profile" f) ->
  User_findOne_other e (u_id (ureq_user req))
    (with_disk ({[storage_destination "profile" +:+ "/" +:+ filename f]}
                ∪ disk w) w)
  = (inr None, w1, e1) ->
  "/uploads/profilePictures/" +:+ filename f
  ≠ storage_destination "profile" +:+ "/" +:+ filename f
  ∧ route_updateProfile User_findOne_other User_save req w
    = match User_save
              (mkUserDoc (u_id (ureq_user req)) n e
                 (u_password (ureq_user req))
                 (Some ("/uploads/profilePictures/" +:+ filename f))) w1 with
      | (inr saved, w2, e2) =>
          (mkUserResponse 200
             (UserJson (u_id saved) (u_name saved) (u_email saved)
                (u_profilePicture saved)),
           w2,
           FileWritten (storage_destination "profile" +:+ "/" +:+ filename f)
             :: e1 ++ e2)
      | (inl err, w2, e2) =>
          (mkUserResponse 500 (UserMessage (message err)), w2,
           FileWritten (storage_destination "profile" +:+ "/" +:+ filename f)
             :: e1 ++ e2)
      end.
Proof.
  intros Hn Hne He Hee Hfile Hfind.
  split; [simpl; intros Heq; by repeat (injection Heq as _ Heq) |].
  unfold route_updateProfile, serveUser, bind at 1, upload_single.
  rewrite Hfile. simpl.
  unfold updateProfile, tryCatch. rewrite Hn, He, Hfile.
  rewrite (falsy_some n Hne), (falsy_some e Hee). simpl.
  unfold bind at 1. simpl in Hfind. rewrite Hfind.
  unfold bind, ret, set_u_profilePicture, set_u_name_email. simpl.
  destruct (User_save _ w1) as [[[err|saved] w2] e2]; simpl;
    by rewrite ?app_nil_r.
Qed.

(** X16.  A password is saved only after [bcrypt.compare] accepted the old
    one.  Without both passwords the answer is status 400 and neither the
    comparison nor [save] is called; when the comparison says no the answer
    is status 401 and [save] is not called; when it says yes, the document
    handed to [save] is [req.user] with the new password and nothing else
    changed. *)
Theorem X16_password_changes_only_after_the_old_one_matched req w :
  (ureq_oldPassword req = None ∨ ureq_oldPassword req = Some ""
   ∨ ureq_newPassword req = None ∨ ureq_newPassword req = Some "" ->
   route_changePassword User_save bcrypt_compare req w
   = (mkUserResponse 400 (UserMessage "Old and new password required"),
      w, []))
  ∧ (∀ o n matched w1 e1,
       ureq_oldPassword req = Some o -> o ≠ "" ->
       ureq_newPassword req = Some n -> n ≠ "" ->
       bcrypt_compare o (u_password (ureq_user req)) w
       = (inr matched, w1, e1) ->
       route_changePassword User_save bcrypt_compare req w
       = if matched then
           match User_save
                   (mkUserDoc (u_id (ureq_user req)) (u_name (ureq_user req))
                      (u_email (ureq_user req)) n
                      (u_profilePicture (ureq_user req))) w1 with
           | (inr saved, w2, e2) =>
               (mkUserResponse 200 (UserMessage "Password changed"), w2,
                e1 ++ e2)
           | (inl err, w2, e2) =>
               (mkUserResponse 500 (UserMessage (message err)), w2, e1 ++ e2)
           end
         else
           (mkUserResponse 401 (UserMessage "Old password incorrect"), w1, e1)).
Proof.
  split.
  - intros Hmissing.
    assert (Hf : falsy (ureq_oldPassword req) || falsy (ureq_newPassword req)
                 = true).
    { apply orb_true_iff. rewrite !falsy_cases. tauto. }
    unfold route_changePassword, serveUser, changePassword, tryCatch.
    by rewrite Hf.
  - intros o n matched w1 e1 Ho Hoe Hn Hne Hcmp.
    unfold route_changePassword, serveUser, changePassword, tryCatch.
    rewrite Ho, Hn, (falsy_some o Hoe), (falsy_some n Hne). simpl.
    unfold bind at 1. rewrite Hcmp. destruct matched; simpl.
    + unfold bind, ret, set_u_password.
      destruct (User_save _ w1) as [[[err|saved] w2] e2]; simpl;
        by rewrite ?app_nil_r.
    + by rewrite app_nil_r.
Qed.

End UserProperties.

(** * The origin check *)

(** X17.  The origin check of the CORS options accepts every request:
    with or without Origin header, listed or not, and whatever the regular
    expressions of the wildcard entries match.  The allow list only
    decides whether a warning is logged, and an origin that contains
    "localhost" or "192.168" is never warned about. *)
Theorem X17_cors_accepts_every_origin regexTest origin :
  (corsOrigin regexTest origin).1 = true
  ∧ (∀ o, origin = Some o ->
       includes "localhost" o = true ∨ includes "192.168" o = true ->
       (corsOrigin regexTest origin).2 = [])
  ∧ (∀ o, origin = Some o -> o ≠ "" ->
       isAllowed regexTest o = false -> includes "localhost" o = false ->
       includes "192.168" o = false ->
       (corsOrigin regexTest origin).2 = ["CORS blocked origin: " +:+ o]).
Proof.
  unfold corsOrigin. split_and!.
  - destruct origin as [o|]; [| done].
    destruct (truthy o); simpl; [| done]. by destruct (_ || _).
  - intros o -> [H | H]; destruct (truthy o); simpl; try done;
      rewrite H, ?orb_true_r; done.
  - intros o -> Hne Ha Hl H1. apply truthy_true in Hne.
    by rewrite Hne, Ha, Hl, H1.
Qed.

(** * Worked runs of the further properties *)

Lemma wellFormed_sharedWorld : wellFormed Ex2.sharedWorld.
Proof.
  intros id r Hr. change (records Ex2.sharedWorld) with
    ({[ Ex.rid := Ex.checkup; Ex.rid2 := Ex2.bobsRecord ]}
       : gmap string RecordDoc) in Hr.
  apply lookup_insert_Some in Hr as [[<- <-] | [_ Hr]]; [done |].
  apply lookup_singleton_Some in Hr as [<- <-]. done.
Qed.

Lemma wellFormed_world : wellFormed Ex.world.
Proof.
  intros id r Hr. change (records Ex.world) with
    ({[ Ex.rid := Ex.checkup ]} : gmap string RecordDoc) in Hr.
  apply lookup_singleton_Some in Hr as [<- <-]. done.
Qed.

Lemma finds_checkup_after_fault (w : World) :
  records w = {[ Ex.rid := Ex.checkup ]} -> dbFaults w = [false; true] ->
  finds isHex24 w Ex.rid Ex.checkup.
Proof.
  intros Hr Hf. unfold finds. rewrite Hr, Hf.
  split_and!; [reflexivity | discriminate | apply lookup_singleton_eq
              | reflexivity].
Qed.

(** X1 at Alice's create with a lab report. *)
Lemma X1_witness :
  ∃ r' w' evs,
    route_post parseFlatObject Ex.rid2 Ex2.createWithLab Ex.world
    = (mkResponse 201 (RecordJson r'), w', evs)
    ∧ user r' = Ex.alice ∧ title r' = "Checkup"
    ∧ medicalHistory r' = "" ∧ doctorNotes r' = "rest"
    ∧ vitals r' = Some emptyVitals
    ∧ labReport (files r') = Ex.newLabPath
    ∧ Ex.newLabPath ∈ disk w'
    ∧ prescription (files r') = "".
Proof.
  destruct (X1_create_stores_the_request parseFlatObject Ex.rid2
              Ex2.createWithLab Ex.world None [] "Checkup" (Some emptyVitals))
    as (r' & w' & Hrun & _ & _ & _ & Hu & Ht & Hm & Hd & Hv & Hlab & Hrx).
  - reflexivity.
  - discriminate.
  - by constructor.
  - reflexivity.
  - reflexivity.
  - reflexivity.
  - simpl in Hlab. destruct Hlab as [Hlab Hdisk].
    eexists r', w', _. split; [exact Hrun |].
    rewrite Hlab in Hdisk. by split_and!.
Defined.

(** X2 at an update and a delete for an id without record. *)
Lemma X2_witness :
  canonicalId (req_params_id Ex2.updateAbsent) = true
  ∧ (∃ w', route_put parseFlatObject isHex24 Ex2.updateAbsent Ex.world
         = (NotFoundError, w', [])
         ∧ records w' = records Ex.world)
  ∧ (∃ w', route_delete isHex24 Ex2.updateAbsent Ex.world
           = (NotFoundError, w', [])
           ∧ records w' = records Ex.world).
Proof.
  destruct (X2_absent_record_is_not_found parseFlatObject isHex24
              Ex2.updateAbsent Ex.world)
    as [(w1 & H1 & Hr1 & _) (w2 & H2 & Hr2 & _)].
  - reflexivity.
  - reflexivity.
  - reflexivity.
  - by apply lookup_singleton_None.
  - split_and!; [reflexivity | eauto | eauto].
Defined.

(** X3 at the id "42". *)
Lemma X3_witness :
  isHex24 "42" = false
  ∧ (route_put parseFlatObject isHex24 Ex2.updateMalformed Ex.world).1.1
    = UpdateFailed
  ∧ (route_delete isHex24 Ex2.updateMalformed Ex.world).1.1
    = mkResponse 500 (Message "Delete record failed").
Proof.
  destruct (X3_malformed_id_is_a_server_error parseFlatObject isHex24
              Ex2.updateMalformed Ex.world eq_refl) as (H1 & H2 & _).
  split; [reflexivity |]. by rewrite H1, H2.
Defined.

(** X4 at the update that replaces the lab report: the old file left the
    disk, so the caller owns the record. *)
Lemma X4_witness :
  canonicalId (req_params_id Ex.replaceLab) = true
  ∧ ¬ (disk Ex.world
       ⊆ disk (route_put parseFlatObject isHex24 Ex.replaceLab Ex.world).1.2)
  ∧ ∃ r, records Ex.world !! Ex.rid = Some r ∧ user r = Ex.alice.
Proof.
  pose (run := route_put parseFlatObject isHex24 Ex.replaceLab Ex.world).
  assert (Hgone : ¬ (disk Ex.world ⊆ disk run.1.2)).
  { intros Hsub. assert (Hin : Ex.oldLab ∈ disk run.1.2).
    { apply Hsub. clear. simpl. set_solver. }
    clear -Hin. simpl in Hin. unfold fullPathOf in Hin. set_solver. }
  split; [reflexivity |]. split; [exact Hgone |].
  apply (X4_only_the_owner_changes_anything parseFlatObject isHex24
           Ex.replaceLab Ex.world run.1.1 run.1.2 run.2).
  - reflexivity.
  - left. apply run_eta.
  - by right.
Defined.

(** X5 at the update that clears the medical history of Alice's record,
    in a collection that also holds a record of Bob: the update succeeds,
    Bob's record is as stored, and Alice's record keeps its _id and its
    owner. *)
Lemma X5_witness :
  canonicalId (req_params_id Ex.clearHistory) = true
  ∧ status (route_put parseFlatObject isHex24 Ex.clearHistory
              Ex2.sharedWorld).1.1 = 200
  ∧ records (route_put parseFlatObject isHex24 Ex.clearHistory
               Ex2.sharedWorld).1.2 !! Ex.rid2
    = Some Ex2.bobsRecord
  ∧ dom (records (route_put parseFlatObject isHex24 Ex.clearHistory
                    Ex2.sharedWorld).1.2)
    = dom (records Ex2.sharedWorld)
  ∧ ∀ r', records (route_put parseFlatObject isHex24 Ex.clearHistory
                     Ex2.sharedWorld).1.2 !! Ex.rid = Some r' ->
          _id r' = Ex.rid ∧ user r' = Ex.alice.
Proof.
  pose (run := route_put parseFlatObject isHex24 Ex.clearHistory
                 Ex2.sharedWorld).
  destruct (X5_update_touches_one_record parseFlatObject isHex24
              Ex.clearHistory Ex2.sharedWorld run.1.1 run.1.2 run.2
              eq_refl wellFormed_sharedWorld (run_eta run))
    as (Hrest & Hdom & Hown).
  split_and!; [reflexivity | reflexivity | | exact Hdom |].
  - etrans; [apply (Hrest Ex.rid2); discriminate |]. clear.
    change (records Ex2.sharedWorld) with
      ({[ Ex.rid := Ex.checkup; Ex.rid2 := Ex2.bobsRecord ]}
         : gmap string RecordDoc).
    rewrite lookup_insert_ne; [| discriminate]. apply lookup_singleton_eq.
  - intros r' Hr'. apply (Hown Ex.checkup r'); [| exact Hr']. clear.
    change (records Ex2.sharedWorld) with
      ({[ Ex.rid := Ex.checkup; Ex.rid2 := Ex2.bobsRecord ]}
         : gmap string RecordDoc).
    apply lookup_insert_eq.
Defined.

(** X6 at the update that clears the medical history and at a create. *)
Lemma X6_witness :
  wellFormed (route_put parseFlatObject isHex24 Ex.clearHistory Ex.world).1.2
  ∧ wellFormed
      (route_post parseFlatObject Ex.rid2 Ex2.createWithLab Ex.world).1.2.
Proof.
  pose (put := route_put parseFlatObject isHex24 Ex.clearHistory Ex.world).
  pose (post := route_post parseFlatObject Ex.rid2 Ex2.createWithLab Ex.world).
  destruct (X6_routes_keep_the_collection_well_formed parseFlatObject isHex24
              Ex.rid2 Ex.clearHistory Ex.world wellFormed_world)
    as (_ & Hput & _).
  destruct (X6_routes_keep_the_collection_well_formed parseFlatObject isHex24
              Ex.rid2 Ex2.createWithLab Ex.world wellFormed_world)
    as (Hpost & _).
  split.
  - apply (Hput put.1.1 put.1.2 put.2). apply run_eta.
  - apply (Hpost post.1.1 post.1.2 post.2). apply run_eta.
Defined.

(** X7 at Alice's delete when the database fails at [deleteOne]. *)
Lemma X7_witness :
  ∃ w' evs,
    route_delete isHex24 Ex.plainDelete Ex2.worldSecondCallFails
    = (mkResponse 500 (Message "Delete record failed"), w', evs)
    ∧ records w' !! Ex.rid = Some Ex.checkup
    ∧ (Ex.oldLab ∉ disk w') ∧ (Ex.oldRx ∉ disk w').
Proof.
  destruct (X7_failed_delete_has_removed_the_files isHex24 Ex.plainDelete
              Ex2.worldSecondCallFails Ex.checkup)
    as (w' & evs & Hrun & Hrec & Hfiles).
  - by apply finds_checkup_after_fault.
  - reflexivity.
  - reflexivity.
  - exists w', evs. split; [exact Hrun |]. split_and!.
    + rewrite Hrec. apply lookup_singleton_eq.
    + apply Hfiles;
        [by left | reflexivity | clear; set_solver | clear; set_solver].
    + apply Hfiles;
        [by right | reflexivity | clear; set_solver | clear; set_solver].
Defined.

(** X8 at Alice's account deletion beside Bob's record. *)
Lemma X8_witness :
  ∃ w',
    (route_deleteAccount Ex.plainDelete Ex2.sharedWorld).1.2 = w'
    ∧ records w' !! Ex.rid = None
    ∧ records w' !! Ex.rid2 = Some Ex2.bobsRecord
    ∧ disk w' = disk Ex2.sharedWorld.
Proof.
  destruct (X8_account_delete_removes_the_callers_records Ex.plainDelete
              Ex2.sharedWorld eq_refl eq_refl)
    as (w' & Hrun & Hrecs & _ & Hdisk).
  exists w'. split; [by rewrite Hrun |]. split_and!; [| | exact Hdisk].
  - destruct (records w' !! Ex.rid) as [r|] eqn:Hr; [| done].
    apply Hrecs in Hr as [Hr Hu]. exfalso.
    change (records Ex2.sharedWorld)
      with (<[Ex.rid := Ex.checkup]> {[Ex.rid2 := Ex2.bobsRecord]}
            : gmap string RecordDoc) in Hr.
    rewrite lookup_insert_eq in Hr. injection Hr as <-. by apply Hu.
  - apply Hrecs. split; [| discriminate].
    change (records Ex2.sharedWorld)
      with (<[Ex.rid := Ex.checkup]> {[Ex.rid2 := Ex2.bobsRecord]}
            : gmap string RecordDoc).
    rewrite lookup_insert_ne by discriminate. apply lookup_singleton_eq.
Defined.

(** X9 at both failure points. *)
Lemma X9_witness :
  (∃ res w' evs,
      route_deleteAccount Ex.plainDelete Ex.worldDbDown = (res, w', evs)
      ∧ status res = 500 ∧ records w' = records Ex.worldDbDown)
  ∧ (∃ res w' evs,
      route_deleteAccount Ex.plainDelete Ex2.worldSecondCallFails
      = (res, w', evs)
      ∧ status res = 500
      ∧ (∀ id r, records w' !! id = Some r -> user r ≠ Ex.alice)
      ∧ Ex.alice ∈ users w').
Proof.
  split.
  - destruct (X9_account_delete_can_stop_halfway Ex.plainDelete
                Ex.worldDbDown) as [Hfirst _].
    destruct (Hfirst eq_refl) as (res & w' & evs & Hrun & Hst & Hrec & _).
    by exists res, w', evs.
  - destruct (X9_account_delete_can_stop_halfway Ex.plainDelete
                Ex2.worldSecondCallFails) as [_ Hsecond].
    destruct (Hsecond eq_refl eq_refl)
      as (res & w' & evs & Hrun & Hst & Hrec & Husers).
    exists res, w', evs. split_and!; [done | done | done |].
    rewrite Husers. simpl. set_solver.
Defined.

(** X10 at the lab report of Alice's record: the file is removed, the
    prescription stays. *)
Lemma X10_witness :
  normalPath Ex.oldLab = true
  ∧ ∃ w' evs,
      deleteFileIfExists Ex.oldLab Ex.world = (inr tt, w', evs)
      ∧ records w' = records Ex.world
      ∧ Ex.oldRx ∈ disk w'
      ∧ (Ex.oldLab ∉ disk w').
Proof.
  split; [reflexivity |].
  destruct (X10_deleteFileIfExists_is_contained Ex.oldLab Ex.world)
    as (w' & evs & Hrun & Hrec & _ & Hother & Hself & _).
  - right. reflexivity.
  - exists w', evs. split_and!; [done | done | |].
    + apply Hother; [discriminate |]. clear. simpl. set_solver.
    + intros Hin. apply Hself in Hin as [_ [Hin | Hin]]; [discriminate |].
      clear -Hin. by apply elem_of_empty in Hin.
Defined.

(** X11 at Alice's create with a lab report, then her delete. *)
Lemma X11_witness :
  ∃ w2 evs2,
    route_delete isHex24 Ex2.deleteCreated
      (route_post parseFlatObject Ex.rid2 Ex2.createWithLab Ex.world).1.2
    = (Deleted, w2, evs2)
    ∧ records w2 = records Ex.world
    ∧ (Ex.newLabPath ∉ disk w2) ∧ Ex.oldLab ∈ disk w2.
Proof.
  pose (run := route_post parseFlatObject Ex.rid2 Ex2.createWithLab Ex.world).
  destruct (X11_delete_undoes_create parseFlatObject isHex24 Ex.rid2
              Ex2.createWithLab Ex2.deleteCreated Ex.world
              run.1.1 run.1.2 run.2)
    as (w2 & evs2 & Hdel & Hrec & Hdisk).
  - reflexivity.
  - reflexivity.
  - intros p _. simpl. set_solver.
  - reflexivity.
  - reflexivity.
  - apply run_eta.
  - reflexivity.
  - exists w2, evs2. split; [exact Hdel |]. split; [exact Hrec |]. split.
    + intros Hin. apply Hdisk in Hin as [_ Hout]. apply Hout. clear.
      unfold uploadedPaths, uploadTargets, Ex.newLabPath. simpl. set_solver.
    + apply Hdisk. clear. split; [simpl; set_solver |].
      unfold uploadedPaths, uploadTargets, Ex.oldLab, fullPathOf. simpl.
      set_solver.
Defined.

(** X12 at the update that clears the medical history. *)
Lemma X12_witness :
  route_put parseFlatObject isHex24 Ex.clearHistory
    (route_put parseFlatObject isHex24 Ex.clearHistory Ex.world).1.2
  = route_put parseFlatObject isHex24 Ex.clearHistory Ex.world.
Proof.
  pose (run := route_put parseFlatObject isHex24 Ex.clearHistory Ex.world).
  transitivity (run.1.1, run.1.2, run.2); [| symmetry; apply run_eta].
  apply (X12_update_without_files_is_idempotent parseFlatObject isHex24
           Ex.clearHistory Ex.world Ex.checkup).
  - by apply finds_checkup.
  - reflexivity.
  - reflexivity.
  - reflexivity.
  - reflexivity.
  - apply run_eta.
  - reflexivity.
Defined.

(** X13 at Alice's listing beside Bob's record, and at a failing
    database. *)
Lemma X13_witness :
  (∃ l, route_get Ex2.createdAt Ex.plainDelete Ex2.sharedWorld
        = (mkListResponse 200 (RecordsJson l), Ex2.sharedWorld, [])
        ∧ length l = 1 ∧ Ex.checkup ∈ l ∧ (Ex2.bobsRecord ∉ l))
  ∧ route_get Ex2.createdAt Ex.plainDelete Ex.worldDbDown
    = (mkListResponse 500 (ListMessage "Fetch records failed"),
       afterDbCall Ex.worldDbDown, [Logged "getRecords error:"]).
Proof.
  destruct (X13_listing_returns_the_callers_records_newest_first
              Ex2.createdAt Ex.plainDelete Ex2.sharedWorld) as [Hok _].
  destruct (X13_listing_returns_the_callers_records_newest_first
              Ex2.createdAt Ex.plainDelete Ex.worldDbDown) as [_ Hfail].
  split; [| by apply Hfail].
  destruct (Hok eq_refl) as (l & Hrun & Hmem & Hlen & _).
  exists l. split; [exact Hrun |]. split_and!.
  - rewrite Hlen. reflexivity.
  - apply Hmem. exists Ex.rid. split; [| reflexivity].
    change (records Ex2.sharedWorld)
      with (<[Ex.rid := Ex.checkup]> {[Ex.rid2 := Ex2.bobsRecord]}
            : gmap string RecordDoc).
    apply lookup_insert_eq.
  - intros Hin. apply Hmem in Hin as (id & _ & Hu). discriminate.
Defined.

(** X14 at a profile update without name, and at one whose email the
    model finds taken. *)
Lemma X14_witness :
  route_updateProfile Ex2.findNoOne Ex2.saveAsGiven Ex2.profileWithoutName
    Ex.world
  = (mkUserResponse 400 (UserMessage "Name and email required"),
     with_disk ({["/uploads/profile/1700000900000-q1w2e3r.png"]}
                ∪ disk Ex.world) Ex.world,
     [FileWritten "/uploads/profile/1700000900000-q1w2e3r.png"])
  ∧ updateProfile Ex2.findCarl Ex2.saveAsGiven Ex2.profileWithPicture Ex.world
    = (inr (mkUserResponse 400 (UserMessage "Email already in use")),
       Ex.world, []).
Proof.
  split.
  - destruct (X14_refused_profile_update_saves_nothing Ex2.findNoOne
                Ex2.saveAsGiven Ex2.profileWithoutName Ex.world)
      as [Hmissing _].
    destruct Hmissing as [_ Hroute]; [by left |].
    by apply (Hroute Ex2.picture).
  - destruct (X14_refused_profile_update_saves_nothing Ex2.findCarl
                Ex2.saveAsGiven Ex2.profileWithPicture Ex.world)
      as [_ Htaken].
    apply (Htaken "Ann B" "annb@example.org" Ex2.carl);
      [reflexivity | discriminate | reflexivity | discriminate | reflexivity].
Defined.

(** X15 at Ann's profile update with a picture. *)
Lemma X15_witness :
  ∃ w',
    route_updateProfile Ex2.findNoOne Ex2.saveAsGiven Ex2.profileWithPicture
      Ex.world
    = (mkUserResponse 200
         (UserJson Ex.alice "Ann B" "annb@example.org"
            (Some "/uploads/profilePictures/1700000900000-q1w2e3r.png")),
       w', [FileWritten "/uploads/profile/1700000900000-q1w2e3r.png"])
    ∧ "/uploads/profile/1700000900000-q1w2e3r.png" ∈ disk w'
    ∧ ("/uploads/profilePictures/1700000900000-q1w2e3r.png" ∉ disk w').
Proof.
  destruct (X15_profile_picture_reference_misses_the_file Ex2.findNoOne
              Ex2.saveAsGiven Ex2.profileWithPicture Ex.world Ex2.picture
              "Ann B" "annb@example.org"
              (with_disk ({["/uploads/profile/1700000900000-q1w2e3r.png"]}
                          ∪ disk Ex.world) Ex.world) [])
    as [_ Hrun];
    [reflexivity | discriminate | reflexivity | discriminate | reflexivity
    | reflexivity |].
  eexists. split; [exact Hrun |]. clear. simpl.
  unfold Ex.oldLab, Ex.oldRx. set_solver.
Defined.

(** X16 at a wrong and at the right old password. *)
Lemma X16_witness :
  route_changePassword Ex2.saveAsGiven Ex2.comparePlain Ex2.passwordWrong
    Ex.world
  = (mkUserResponse 401 (UserMessage "Old password incorrect"), Ex.world, [])
  ∧ route_changePassword Ex2.saveAsGiven Ex2.comparePlain Ex2.passwordRight
      Ex.world
    = (mkUserResponse 200 (UserMessage "Password changed"), Ex.world, []).
Proof.
  split.
  - destruct (X16_password_changes_only_after_the_old_one_matched
                Ex2.saveAsGiven Ex2.comparePlain Ex2.passwordWrong Ex.world)
      as [_ Hcmp].
    apply (Hcmp "guess" "next" false Ex.world []);
      [reflexivity | discriminate | reflexivity | discriminate | reflexivity].
  - destruct (X16_password_changes_only_after_the_old_one_matched
                Ex2.saveAsGiven Ex2.comparePlain Ex2.passwordRight Ex.world)
      as [_ Hcmp].
    apply (Hcmp "secret" "next" true Ex.world []);
      [reflexivity | discriminate | reflexivity | discriminate | reflexivity].
Defined.
